(** * device_grabber: grab/ungrab orchestration and event routing

    A shallow embedding of [src/core/grabber/include/device_grabber.hpp].

    Every block the class runs is serialized on the main dispatch queue
    (the hot-plug callbacks, the blocks posted by [grab_devices] and
    [ungrab_devices], the grab timer's event handler and the value
    callbacks of the device handles), so one block is one atomic step on
    the record [device_grabber] below.  Calls that leave the class (device
    handles, the event manipulator, the HID system client, the console
    user client, the logger, libdispatch) are recorded, in program order, in
    the field [trace]. *)

From stdpp Require Import gmap strings list fin_maps.
From Stdlib Require Import ZArith.

Local Open Scope Z_scope.
#[local] Set Warnings "-clear-no-such-hyp".

(** ** Collaborators *)

Module krbn.

(** [krbn::led_state] of types.hpp. *)
Inductive led_state := on | off.

(** [krbn::key_code] is an [enum class] over [uint32_t]; a value is its
    underlying integer. *)
Definition key_code := Z.

End krbn.

(** The constants [value_callback] compares against.  The first three come
    from IOKit's usage tables, the next two from apple_hid_usage_tables.hpp
    and the last one from types.hpp; none of these headers is part of the
    translated file, so the constants are a parameter of the router. *)
Record usage_tables := {
  kHIDPage_KeyboardOrKeypad : Z;
  kHIDUsage_KeyboardErrorUndefined : Z;
  kHIDUsage_Keyboard_Reserved : Z;
  kHIDPage_AppleVendorTopCase : Z;
  kHIDUsage_AV_TopCase_KeyboardFn : Z;
  vk_fn_modifier : krbn.key_code
}.

(** The values of the IOKit and Apple vendor tables on macOS; the value of
    [vk_fn_modifier] stands for whatever enumerator types.hpp declares. *)
Definition macos_usage_tables : usage_tables :=
  {| kHIDPage_KeyboardOrKeypad := 0x07;
     kHIDUsage_KeyboardErrorUndefined := 0x03;
     kHIDUsage_Keyboard_Reserved := 0xFFFF;
     kHIDPage_AppleVendorTopCase := 0x00FF;
     kHIDUsage_AV_TopCase_KeyboardFn := 0x0003;
     vk_fn_modifier := 0x1002 |}.

(** Modelled from the spec: the capability state of a device handle
    (human_interface_device.hpp is not part of the translated file).  A
    handle is observed, seized, or neither. *)
Inductive capability := idle | observed | grabbed.

(** The operating system's side of a matched device: the metadata it
    reports, and how it answers when the handle asks to seize the device or
    to release the seize ([grab(callback) -> Result], [ungrab() -> Result]). *)
Record device_properties := {
  prop_manufacturer : option string;
  prop_product : option string;
  prop_vendor_id : option Z;
  prop_product_id : option Z;
  prop_location_id : option Z;
  prop_serial_number : option string;
  prop_registry_entry_id : Z;
  os_grants_seize : bool;
  os_grants_release : bool
}.

(** Modelled from the spec: the per-device handle of
    human_interface_device.hpp, with the metadata accessors, the buffered
    changed and pressed keys, the capability state and the caps-lock LED.
    A seize or a release the operating system refuses leaves the capability
    state as it is; the grabber discards the result of both calls. *)
Record human_interface_device := {
  properties : device_properties;
  changed_keys : list Z;
  pressed_keys : list Z;
  capability_state : capability;
  caps_lock_led : option krbn.led_state
}.

Definition get_manufacturer (hid : human_interface_device) : option string :=
  prop_manufacturer (properties hid).
Definition get_product (hid : human_interface_device) : option string :=
  prop_product (properties hid).
Definition get_vendor_id (hid : human_interface_device) : option Z :=
  prop_vendor_id (properties hid).
Definition get_product_id (hid : human_interface_device) : option Z :=
  prop_product_id (properties hid).
Definition get_location_id (hid : human_interface_device) : option Z :=
  prop_location_id (properties hid).
Definition get_serial_number (hid : human_interface_device) : option string :=
  prop_serial_number (properties hid).
Definition get_registry_entry_id (hid : human_interface_device) : Z :=
  prop_registry_entry_id (properties hid).

(** [size_t] arithmetic wraps at 2^64. *)
Definition size_max : Z := 2 ^ 64.

Definition get_pressed_keys_count (hid : human_interface_device) : Z :=
  Z.of_nat (length (pressed_keys hid)) mod size_max.

(** [std::make_unique<human_interface_device>(logger, device)]. *)
Definition new_human_interface_device (p : device_properties) : human_interface_device :=
  {| properties := p; changed_keys := []; pressed_keys := [];
     capability_state := idle; caps_lock_led := None |}.

Definition hid_op_observe (hid : human_interface_device) : human_interface_device :=
  {| properties := properties hid; changed_keys := changed_keys hid;
     pressed_keys := pressed_keys hid; capability_state := observed;
     caps_lock_led := caps_lock_led hid |}.

Definition hid_op_unobserve (hid : human_interface_device) : human_interface_device :=
  {| properties := properties hid; changed_keys := changed_keys hid;
     pressed_keys := pressed_keys hid;
     capability_state :=
       match capability_state hid with observed => idle | c => c end;
     caps_lock_led := caps_lock_led hid |}.

Definition hid_op_grab (hid : human_interface_device) : human_interface_device :=
  {| properties := properties hid; changed_keys := changed_keys hid;
     pressed_keys := pressed_keys hid;
     capability_state :=
       if os_grants_seize (properties hid) then grabbed else capability_state hid;
     caps_lock_led := caps_lock_led hid |}.

Definition hid_op_ungrab (hid : human_interface_device) : human_interface_device :=
  {| properties := properties hid; changed_keys := changed_keys hid;
     pressed_keys := pressed_keys hid;
     capability_state :=
       if os_grants_release (properties hid)
       then match capability_state hid with grabbed => idle | c => c end
       else capability_state hid;
     caps_lock_led := caps_lock_led hid |}.

Definition hid_op_set_caps_lock_led_state (st : krbn.led_state)
    (hid : human_interface_device) : human_interface_device :=
  {| properties := properties hid; changed_keys := changed_keys hid;
     pressed_keys := pressed_keys hid; capability_state := capability_state hid;
     caps_lock_led := Some st |}.

Definition hid_op_clear_changed_keys (hid : human_interface_device) : human_interface_device :=
  {| properties := properties hid; changed_keys := [];
     pressed_keys := pressed_keys hid; capability_state := capability_state hid;
     caps_lock_led := caps_lock_led hid |}.

Definition hid_op_clear_pressed_keys (hid : human_interface_device) : human_interface_device :=
  {| properties := properties hid; changed_keys := changed_keys hid;
     pressed_keys := []; capability_state := capability_state hid;
     caps_lock_led := caps_lock_led hid |}.

(** The handle's own bookkeeping when the hardware reports key activity. *)
Definition hid_op_keys (changed pressed : list Z)
    (hid : human_interface_device) : human_interface_device :=
  {| properties := properties hid; changed_keys := changed;
     pressed_keys := pressed; capability_state := capability_state hid;
     caps_lock_led := caps_lock_led hid |}.

(** Modelled from the spec: the system caps-lock facility of
    hid_system_client.hpp.  The query answers with the hardware state or with
    no value; the setter forces the hardware state. *)
Record hid_system_client := {
  caps_lock_readable : bool;
  caps_lock_hardware : bool
}.

Definition get_caps_lock_state (c : hid_system_client) : option bool :=
  if caps_lock_readable c then Some (caps_lock_hardware c) else None.

Definition set_caps_lock_state (b : bool) (c : hid_system_client) : hid_system_client :=
  {| caps_lock_readable := caps_lock_readable c; caps_lock_hardware := b |}.

(** Modelled from the spec: [manipulator::modifier_flag_manager] of
    manipulator.hpp, the currently asserted modifier flags; [reset] clears
    them. *)
Definition modifier_flag_manager := list Z.

Definition modifier_flag_manager_reset (m : modifier_flag_manager) : modifier_flag_manager := [].

(** ** Calls that leave the class *)

Inductive call :=
| hid_observe (device : N)
| hid_unobserve (device : N)
| hid_grab (device : N)
| hid_ungrab (device : N)
| hid_set_caps_lock_led_state (device : N) (st : krbn.led_state)
| hid_clear_changed_keys (device : N)
| hid_clear_pressed_keys (device : N)
| hid_destroy (device : N)
| handle_keyboard_event (device_registry_entry_id : Z) (key : krbn.key_code) (pressed : bool)
| hid_system_set_caps_lock_state (b : bool)
| console_user_stop_key_repeat
| console_user_connect_ack
| logger_warn (message : string)
| logger_info (message : string)
| logger_info_matching (manufacturer product : string) (vendor_id product_id location_id : Z)
                       (serial_number : string) (registry_entry_id : Z)
| logger_info_removal (vendor_id product_id location_id : Z)
| dispatch_source_resume (timer : N)
| dispatch_source_cancel (timer : N).

(** ** The object and its surroundings *)

Record device_grabber := {
  (* members *)
  hid_system_client_ : hid_system_client;
  hids_ : gmap N human_interface_device;   (* keyed by IOHIDDeviceRef *)
  grab_timer_ : option N;                  (* 0 is None *)
  grab_retry_count_ : Z;
  grabbed_ : bool;
  modifier_flag_manager_ : modifier_flag_manager;
  simple_modifications_ : gmap Z Z;
  (* libdispatch: the resumed, not yet cancelled timer sources of the main
     queue, each with the [__block last_warning_message_time] its handler
     captured, and the next source to be handed out *)
  timer_sources : gmap N Z;
  next_timer_source : N;
  (* everything the object called, oldest first *)
  trace : list call
}.

Definition set_hid_system_client (v : hid_system_client) (s : device_grabber) : device_grabber :=
  {| hid_system_client_ := v; hids_ := hids_ s; grab_timer_ := grab_timer_ s;
     grab_retry_count_ := grab_retry_count_ s; grabbed_ := grabbed_ s;
     modifier_flag_manager_ := modifier_flag_manager_ s;
     simple_modifications_ := simple_modifications_ s;
     timer_sources := timer_sources s; next_timer_source := next_timer_source s;
     trace := trace s |}.

Definition set_hids (v : gmap N human_interface_device) (s : device_grabber) : device_grabber :=
  {| hid_system_client_ := hid_system_client_ s; hids_ := v; grab_timer_ := grab_timer_ s;
     grab_retry_count_ := grab_retry_count_ s; grabbed_ := grabbed_ s;
     modifier_flag_manager_ := modifier_flag_manager_ s;
     simple_modifications_ := simple_modifications_ s;
     timer_sources := timer_sources s; next_timer_source := next_timer_source s;
     trace := trace s |}.

Definition set_grab_timer (v : option N) (s : device_grabber) : device_grabber :=
  {| hid_system_client_ := hid_system_client_ s; hids_ := hids_ s; grab_timer_ := v;
     grab_retry_count_ := grab_retry_count_ s; grabbed_ := grabbed_ s;
     modifier_flag_manager_ := modifier_flag_manager_ s;
     simple_modifications_ := simple_modifications_ s;
     timer_sources := timer_sources s; next_timer_source := next_timer_source s;
     trace := trace s |}.

Definition set_grab_retry_count (v : Z) (s : device_grabber) : device_grabber :=
  {| hid_system_client_ := hid_system_client_ s; hids_ := hids_ s; grab_timer_ := grab_timer_ s;
     grab_retry_count_ := v; grabbed_ := grabbed_ s;
     modifier_flag_manager_ := modifier_flag_manager_ s;
     simple_modifications_ := simple_modifications_ s;
     timer_sources := timer_sources s; next_timer_source := next_timer_source s;
     trace := trace s |}.

Definition set_grabbed (v : bool) (s : device_grabber) : device_grabber :=
  {| hid_system_client_ := hid_system_client_ s; hids_ := hids_ s; grab_timer_ := grab_timer_ s;
     grab_retry_count_ := grab_retry_count_ s; grabbed_ := v;
     modifier_flag_manager_ := modifier_flag_manager_ s;
     simple_modifications_ := simple_modifications_ s;
     timer_sources := timer_sources s; next_timer_source := next_timer_source s;
     trace := trace s |}.

Definition set_modifier_flag_manager (v : modifier_flag_manager) (s : device_grabber) : device_grabber :=
  {| hid_system_client_ := hid_system_client_ s; hids_ := hids_ s; grab_timer_ := grab_timer_ s;
     grab_retry_count_ := grab_retry_count_ s; grabbed_ := grabbed_ s;
     modifier_flag_manager_ := v;
     simple_modifications_ := simple_modifications_ s;
     timer_sources := timer_sources s; next_timer_source := next_timer_source s;
     trace := trace s |}.

Definition set_simple_modifications (v : gmap Z Z) (s : device_grabber) : device_grabber :=
  {| hid_system_client_ := hid_system_client_ s; hids_ := hids_ s; grab_timer_ := grab_timer_ s;
     grab_retry_count_ := grab_retry_count_ s; grabbed_ := grabbed_ s;
     modifier_flag_manager_ := modifier_flag_manager_ s;
     simple_modifications_ := v;
     timer_sources := timer_sources s; next_timer_source := next_timer_source s;
     trace := trace s |}.

Definition set_timer_sources (v : gmap N Z) (s : device_grabber) : device_grabber :=
  {| hid_system_client_ := hid_system_client_ s; hids_ := hids_ s; grab_timer_ := grab_timer_ s;
     grab_retry_count_ := grab_retry_count_ s; grabbed_ := grabbed_ s;
     modifier_flag_manager_ := modifier_flag_manager_ s;
     simple_modifications_ := simple_modifications_ s;
     timer_sources := v; next_timer_source := next_timer_source s;
     trace := trace s |}.

Definition set_next_timer_source (v : N) (s : device_grabber) : device_grabber :=
  {| hid_system_client_ := hid_system_client_ s; hids_ := hids_ s; grab_timer_ := grab_timer_ s;
     grab_retry_count_ := grab_retry_count_ s; grabbed_ := grabbed_ s;
     modifier_flag_manager_ := modifier_flag_manager_ s;
     simple_modifications_ := simple_modifications_ s;
     timer_sources := timer_sources s; next_timer_source := v;
     trace := trace s |}.

Definition set_trace (v : list call) (s : device_grabber) : device_grabber :=
  {| hid_system_client_ := hid_system_client_ s; hids_ := hids_ s; grab_timer_ := grab_timer_ s;
     grab_retry_count_ := grab_retry_count_ s; grabbed_ := grabbed_ s;
     modifier_flag_manager_ := modifier_flag_manager_ s;
     simple_modifications_ := simple_modifications_ s;
     timer_sources := timer_sources s; next_timer_source := next_timer_source s;
     trace := v |}.

(** Record one outgoing call. *)
Definition emit (c : call) (s : device_grabber) : device_grabber :=
  set_trace (trace s ++ [c]) s.

(** A call on the handle behind [device]: it is recorded and the handle
    changes as [op] says. *)
Definition on_hid (device : N) (c : call)
    (op : human_interface_device → human_interface_device)
    (s : device_grabber) : device_grabber :=
  emit c (set_hids (alter op device (hids_ s)) s).

(** The state the constructor leaves (the IOHIDManager subscription is the
    source of the hot-plug steps below). *)
Definition device_grabber_new (c : hid_system_client) : device_grabber :=
  {| hid_system_client_ := c; hids_ := ∅; grab_timer_ := None;
     grab_retry_count_ := 0; grabbed_ := false;
     modifier_flag_manager_ := [];
     simple_modifications_ := ∅;
     timer_sources := ∅; next_timer_source := 1%N;
     trace := [] |}.

(** ** Private helpers of the class *)

Definition msg_not_ready : string :=
  "event_manipulator_ is not ready. Please wait for a while.".
Definition msg_pressed_keys : string :=
  "There are pressed down keys in some devices. Please release them.".

(** [manufacturer && *manufacturer == "pqrs.org"]. *)
Definition is_pqrs_manufacturer (manufacturer : option string) : bool :=
  match manufacturer with
  | Some m => String.eqb m "pqrs.org"
  | None => false
  end.

(** [for (auto&& it : hids_) { body }]: the body runs once per entry; the
    bodies below change the handles and never the key set. *)
Definition for_each_hid (body : N → device_grabber → device_grabber)
    (s : device_grabber) : device_grabber :=
  foldl (λ acc device, body device acc) s (map_to_list (hids_ s)).*1.

Definition cancel_grab_timer (s : device_grabber) : device_grabber :=
  match grab_timer_ s with
  | Some t =>
      set_grab_timer None
        (emit (dispatch_source_cancel t)
           (set_timer_sources (delete t (timer_sources s)) s))
  | None => s
  end.

Definition get_all_devices_pressed_keys_count (s : device_grabber) : Z :=
  foldl (λ total it, (total + get_pressed_keys_count it.2) mod size_max)
        0 (map_to_list (hids_ s)).

Definition observe (device : N) (s : device_grabber) : device_grabber :=
  on_hid device (hid_observe device) hid_op_observe s.

Definition unobserve (device : N) (s : device_grabber) : device_grabber :=
  on_hid device (hid_unobserve device) hid_op_unobserve s.

(** [grab(human_interface_device& hid)]; the reference is the registry key
    of the handle. *)
Definition grab (device : N) (s : device_grabber) : device_grabber :=
  match hids_ s !! device with
  | None => s
  | Some hid =>
      if is_pqrs_manufacturer (get_manufacturer hid) then s
      else
        let s := unobserve device s in
        (* seize device *)
        let s := on_hid device (hid_grab device) hid_op_grab s in
        (* set keyboard led *)
        match get_caps_lock_state (hid_system_client_ s) with
        | Some true =>
            on_hid device (hid_set_caps_lock_led_state device krbn.on)
                   (hid_op_set_caps_lock_led_state krbn.on) s
        | _ =>
            on_hid device (hid_set_caps_lock_led_state device krbn.off)
                   (hid_op_set_caps_lock_led_state krbn.off) s
        end
  end.

Definition ungrab (device : N) (s : device_grabber) : device_grabber :=
  match hids_ s !! device with
  | None => s
  | Some hid =>
      if is_pqrs_manufacturer (get_manufacturer hid) then s
      else
        let s := on_hid device (hid_ungrab device) hid_op_ungrab s in
        observe device s
  end.

Definition clear_changed_keys (device : N) (s : device_grabber) : device_grabber :=
  on_hid device (hid_clear_changed_keys device) hid_op_clear_changed_keys s.

Definition clear_pressed_keys (device : N) (s : device_grabber) : device_grabber :=
  on_hid device (hid_clear_pressed_keys device) hid_op_clear_pressed_keys s.

(** ** The grab timer *)

(** Lines 108-124 of the event handler: the part after the warning block. *)
Definition grab_completion (s : device_grabber) : device_grabber :=
  let s := set_grabbed true s in
  let s := for_each_hid (λ device s,
             let s := grab device s in
             let s := clear_changed_keys device s in
             clear_pressed_keys device s) s in
  let s := set_modifier_flag_manager
             (modifier_flag_manager_reset (modifier_flag_manager_ s)) s in
  let s := emit (hid_system_set_caps_lock_state false)
             (set_hid_system_client
                (set_caps_lock_state false (hid_system_client_ s)) s) in
  let s := emit (logger_info "devices are grabbed") s in
  cancel_grab_timer s.

(** The block given to [dispatch_source_set_event_handler], run for the
    timer source [timer] whose captured variable holds
    [last_warning_message_time]; [now] is what [::time(nullptr)] returns and
    [is_ready] what [event_manipulator_.is_ready()] returns. *)
Definition grab_timer_event_handler (timer : N) (last_warning_message_time : Z)
    (now : Z) (is_ready : bool) (s : device_grabber) : device_grabber :=
  if grabbed_ s then s
  else
    let warning_message : option string := None in
    let warning_message :=
      if negb is_ready then Some msg_not_ready else warning_message in
    let warning_message :=
      if 0 <? get_all_devices_pressed_keys_count s
      then Some msg_pressed_keys else warning_message in
    match warning_message with
    | Some message =>
        let time := now in
        if negb (last_warning_message_time =? time) then
          (* last_warning_message_time = time; warn; return *)
          emit (logger_warn message)
               (set_timer_sources (<[timer := time]> (timer_sources s)) s)
        else grab_completion s
    | None => grab_completion s
    end.

(** A timer source fires only while it is resumed and not cancelled. *)
Definition grab_timer_fire (timer : N) (now : Z) (is_ready : bool)
    (s : device_grabber) : device_grabber :=
  match timer_sources s !! timer with
  | Some last_warning_message_time =>
      grab_timer_event_handler timer last_warning_message_time now is_ready s
  | None => s
  end.

(** ** Public methods (the blocks they post to the main queue) *)

(** [now] is the [::time(nullptr)] taken when [grab_devices] was called. *)
Definition grab_devices (now : Z) (s : device_grabber) : device_grabber :=
  let last_warning_message_time := now - 1 in
  let s := cancel_grab_timer s in
  (* setup grab_timer_ *)
  let s := set_grab_retry_count 0 s in
  let t := next_timer_source s in
  let s := set_next_timer_source (N.succ t) s in
  let s := set_grab_timer (Some t) s in
  emit (dispatch_source_resume t)
       (set_timer_sources (<[t := last_warning_message_time]> (timer_sources s)) s).

Definition ungrab_devices (s : device_grabber) : device_grabber :=
  if negb (grabbed_ s) then s
  else
    let s := set_grabbed false s in
    let s := cancel_grab_timer s in
    let s := for_each_hid (λ device s,
               let s := ungrab device s in
               let s := clear_changed_keys device s in
               clear_pressed_keys device s) s in
    let s := set_modifier_flag_manager
               (modifier_flag_manager_reset (modifier_flag_manager_ s)) s in
    let s := emit (hid_system_set_caps_lock_state false)
               (set_hid_system_client
                  (set_caps_lock_state false (hid_system_client_ s)) s) in
    let s := emit console_user_stop_key_repeat s in
    emit (logger_info "devices are ungrabbed") s.

Definition post_connect_ack (s : device_grabber) : device_grabber :=
  emit console_user_connect_ack s.

Definition set_caps_lock_led_state (st : krbn.led_state) (s : device_grabber) : device_grabber :=
  for_each_hid (λ device s,
    on_hid device (hid_set_caps_lock_led_state device st)
           (hid_op_set_caps_lock_led_state st) s) s.

Definition clear_simple_modifications (s : device_grabber) : device_grabber :=
  set_simple_modifications ∅ s.

Definition add_simple_modification (from_key_code to_key_code : krbn.key_code)
    (s : device_grabber) : device_grabber :=
  set_simple_modifications (<[from_key_code := to_key_code]> (simple_modifications_ s)) s.

(** ** Hot-plug callbacks *)

Definition device_matching_callback (device : N) (p : device_properties)
    (s : device_grabber) : device_grabber :=
  if (device =? 0)%N then s
  else
    (* hids_[device] = make_unique(...): a handle already stored under the
       key is destroyed by the assignment *)
    let s := match hids_ s !! device with
             | Some _ => emit (hid_destroy device) s
             | None => s
             end in
    let s := set_hids (<[device := new_human_interface_device p]> (hids_ s)) s in
    let dev := new_human_interface_device p in
    let s := emit (logger_info_matching
                     (default "" (get_manufacturer dev))
                     (default "" (get_product dev))
                     (default 0 (get_vendor_id dev))
                     (default 0 (get_product_id dev))
                     (default 0 (get_location_id dev))
                     (default "" (get_serial_number dev))
                     (get_registry_entry_id dev)) s in
    if grabbed_ s then grab device s else observe device s.

(** [result_success] is [result == kIOReturnSuccess]; the context pointer is
    the grabber itself. *)
Definition static_device_matching_callback (result_success : bool) (device : N)
    (p : device_properties) (s : device_grabber) : device_grabber :=
  if negb result_success then s else device_matching_callback device p s.

Definition device_removal_callback (device : N) (s : device_grabber) : device_grabber :=
  if (device =? 0)%N then s
  else
    match hids_ s !! device with
    | Some dev =>
        let s := emit (logger_info_removal
                         (default 0 (get_vendor_id dev))
                         (default 0 (get_product_id dev))
                         (default 0 (get_location_id dev))) s in
        emit (hid_destroy device) (set_hids (delete device (hids_ s)) s)
    | None => s
    end.

Definition static_device_removal_callback (result_success : bool) (device : N)
    (s : device_grabber) : device_grabber :=
  if negb result_success then s else device_removal_callback device s.

(** ** The event router *)

Definition value_callback (tbl : usage_tables) (device : human_interface_device)
    (usage_page usage integer_value : Z) (s : device_grabber) : device_grabber :=
  if negb (grabbed_ s) then s
  else
    let device_registry_entry_id := get_registry_entry_id device in
    if usage_page =? kHIDPage_KeyboardOrKeypad tbl then
      if (kHIDUsage_KeyboardErrorUndefined tbl <? usage)
         && (usage <? kHIDUsage_Keyboard_Reserved tbl) then
        let pressed := negb (integer_value =? 0) in
        emit (handle_keyboard_event device_registry_entry_id usage pressed) s
      else s
    else if usage_page =? kHIDPage_AppleVendorTopCase tbl then
      if usage =? kHIDUsage_AV_TopCase_KeyboardFn tbl then
        let pressed := negb (integer_value =? 0) in
        emit (handle_keyboard_event device_registry_entry_id (vk_fn_modifier tbl) pressed) s
      else s
    else s.

(** ** The main queue *)

Inductive event :=
| ev_grab_devices (now : Z)
| ev_grab_timer (timer : N) (now : Z) (is_ready : bool)
| ev_ungrab_devices
| ev_post_connect_ack
| ev_set_caps_lock_led_state (st : krbn.led_state)
| ev_clear_simple_modifications
| ev_add_simple_modification (from_key_code to_key_code : krbn.key_code)
| ev_device_matching (result_success : bool) (device : N) (p : device_properties)
| ev_device_removal (result_success : bool) (device : N)
| ev_value (device : N) (usage_page usage integer_value : Z)
| ev_keys (device : N) (changed pressed : list Z)
| ev_caps_lock (readable hardware : bool).

Definition step (tbl : usage_tables) (e : event) (s : device_grabber) : device_grabber :=
  match e with
  | ev_grab_devices now => grab_devices now s
  | ev_grab_timer timer now is_ready => grab_timer_fire timer now is_ready s
  | ev_ungrab_devices => ungrab_devices s
  | ev_post_connect_ack => post_connect_ack s
  | ev_set_caps_lock_led_state st => set_caps_lock_led_state st s
  | ev_clear_simple_modifications => clear_simple_modifications s
  | ev_add_simple_modification f t => add_simple_modification f t s
  | ev_device_matching ok device p => static_device_matching_callback ok device p s
  | ev_device_removal ok device => static_device_removal_callback ok device s
  | ev_value device usage_page usage integer_value =>
      (* a handle calls the router it was given *)
      match hids_ s !! device with
      | Some hid => value_callback tbl hid usage_page usage integer_value s
      | None => s
      end
  | ev_keys device changed pressed =>
      (* a handle buffers key activity of its device *)
      set_hids (alter (hid_op_keys changed pressed) device (hids_ s)) s
  | ev_caps_lock readable hardware =>
      (* the system's caps-lock state changes behind the client *)
      set_hid_system_client
        {| caps_lock_readable := readable; caps_lock_hardware := hardware |} s
  end.

Definition run (tbl : usage_tables) (es : list event) (s : device_grabber) : device_grabber :=
  foldl (λ acc e, step tbl e acc) s es.

(** The states the object can be in: those the main queue produces from a
    freshly constructed grabber. *)
Inductive reachable (tbl : usage_tables) : device_grabber → Prop :=
| reachable_new c : reachable tbl (device_grabber_new c)
| reachable_step e s : reachable tbl s → reachable tbl (step tbl e s).

(** ** Vocabulary of the statements *)

(** The LED state [grab] chooses for an answer of the caps-lock query. *)
Definition led_for (c : hid_system_client) : krbn.led_state :=
  match get_caps_lock_state c with
  | Some true => krbn.on
  | Some false => krbn.off
  | None => krbn.off
  end.

(** A self-originated device: its manufacturer is "pqrs.org". *)
Definition self_originated (hid : human_interface_device) : bool :=
  is_pqrs_manufacturer (get_manufacturer hid).

(** Calls and effect of [grab] on one handle. *)
Definition grab_calls (c : hid_system_client) (device : N)
    (hid : human_interface_device) : list call :=
  if self_originated hid then []
  else [hid_unobserve device; hid_grab device;
        hid_set_caps_lock_led_state device (led_for c)].

Definition grab_effect (c : hid_system_client)
    (hid : human_interface_device) : human_interface_device :=
  if self_originated hid then hid
  else hid_op_set_caps_lock_led_state (led_for c) (hid_op_grab (hid_op_unobserve hid)).

(** Calls and effect of [ungrab] on one handle. *)
Definition ungrab_calls (device : N) (hid : human_interface_device) : list call :=
  if self_originated hid then [] else [hid_ungrab device; hid_observe device].

Definition ungrab_effect (hid : human_interface_device) : human_interface_device :=
  if self_originated hid then hid else hid_op_observe (hid_op_ungrab hid).

(** Calls and effect of the two buffer clears. *)
Definition clear_calls (device : N) : list call :=
  [hid_clear_changed_keys device; hid_clear_pressed_keys device].

Definition clear_effect (hid : human_interface_device) : human_interface_device :=
  hid_op_clear_pressed_keys (hid_op_clear_changed_keys hid).

(** Calls of [cancel_grab_timer]. *)
Definition cancel_calls (timer : option N) : list call :=
  match timer with
  | Some t => [dispatch_source_cancel t]
  | None => []
  end.

(** The timer sources that are alive when [grab_timer_] holds [timer]. *)
Definition alive_timers (timer : option N) : gset N :=
  match timer with
  | Some t => {[t]}
  | None => ∅
  end.

(** What the object called between the states [s] and [s']. *)
Definition new_calls (s s' : device_grabber) : list call :=
  drop (length (trace s)) (trace s').

(** One loop body seen from outside: the handle behind [device] changes by
    [F], the calls [G] are recorded, nothing else moves. *)
Definition visit (F : hid_system_client → human_interface_device → human_interface_device)
    (G : hid_system_client → N → option human_interface_device → list call)
    (device : N) (s : device_grabber) : device_grabber :=
  set_trace (trace s ++ G (hid_system_client_ s) device (hids_ s !! device))
    (set_hids (alter (F (hid_system_client_ s)) device (hids_ s)) s).

Definition grab_body_calls (c : hid_system_client) (device : N)
    (o : option human_interface_device) : list call :=
  match o with
  | Some hid => grab_calls c device hid ++ clear_calls device
  | None => clear_calls device
  end.

Definition ungrab_body_calls (c : hid_system_client) (device : N)
    (o : option human_interface_device) : list call :=
  match o with
  | Some hid => ungrab_calls device hid ++ clear_calls device
  | None => clear_calls device
  end.

(** The timer bookkeeping every reachable state satisfies. *)
Definition timer_inv (s : device_grabber) : Prop :=
  dom (timer_sources s) = alive_timers (grab_timer_ s)
  ∧ ∀ t, grab_timer_ s = Some t → (t < next_timer_source s)%N.

(** Calls [cs] on the handle behind [device], changing it by [op]. *)
Definition touch (device : N) (cs : list call)
    (op : human_interface_device → human_interface_device)
    (s : device_grabber) : device_grabber :=
  set_trace (trace s ++ cs) (set_hids (alter op device (hids_ s)) s).

(** [s'] has the timer bookkeeping of [s]. *)
Definition same_timers (s s' : device_grabber) : Prop :=
  grab_timer_ s' = grab_timer_ s
  ∧ timer_sources s' = timer_sources s
  ∧ next_timer_source s' = next_timer_source s.

(** ** Sample inputs *)

Definition apple_keyboard : device_properties :=
  {| prop_manufacturer := Some "Apple Inc."%string;
     prop_product := Some "Apple Internal Keyboard"%string;
     prop_vendor_id := Some 0x05ac; prop_product_id := Some 0x0262;
     prop_location_id := Some 0x14400000; prop_serial_number := None;
     prop_registry_entry_id := 4294968320;
     os_grants_seize := true; os_grants_release := true |}.

Definition virtual_keyboard : device_properties :=
  {| prop_manufacturer := Some "pqrs.org"%string;
     prop_product := Some "VirtualHIDKeyboard"%string;
     prop_vendor_id := None; prop_product_id := None;
     prop_location_id := None; prop_serial_number := None;
     prop_registry_entry_id := 4294968321;
     os_grants_seize := true; os_grants_release := true |}.


Definition caps_on : hid_system_client :=
  {| caps_lock_readable := true; caps_lock_hardware := true |}.

(** A keyboard and the virtual keyboard attached, nothing requested yet. *)
Definition two_devices : device_grabber :=
  run macos_usage_tables
    [ev_device_matching true 7%N apple_keyboard;
     ev_device_matching true 9%N virtual_keyboard]
    (device_grabber_new caps_on).

(** The same after [grab_devices] at second 100. *)
Definition two_devices_armed : device_grabber :=
  step macos_usage_tables (ev_grab_devices 100) two_devices.

(** The same after the first tick has grabbed. *)
Definition two_devices_grabbed : device_grabber :=
  step macos_usage_tables (ev_grab_timer 1%N 100 true) two_devices_armed.


(** [two_devices_armed] with a retry count left over. *)
Definition two_devices_retried : device_grabber :=
  set_grab_retry_count 3 two_devices_armed.

(** A key of the keyboard is held down while [grab_devices] is called at
    second 100, and the first tick, in the same second, has warned. *)
Definition key_held_warned : device_grabber :=
  run macos_usage_tables
    [ev_device_matching true 7%N apple_keyboard;
     ev_keys 7%N [4] [4];
     ev_grab_devices 100;
     ev_grab_timer 1%N 100 true]
    (device_grabber_new caps_on).

(** ** The rest of the class *)

(** [~device_grabber]: the body cancels the grab timer and releases the
    IOHIDManager subscription (the manager is not part of the state); after
    the body the members are destroyed, and with [hids_] every handle the
    registry owns. *)
Definition device_grabber_destroy (s : device_grabber) : device_grabber :=
  let s := cancel_grab_timer s in
  let s := set_trace
             (trace s ++ flat_map (λ it, [hid_destroy it.1]) (map_to_list (hids_ s))) s in
  set_hids ∅ s.

(** ** Vocabulary of the further statements *)

(** The keys held down on all registered devices together, as a number
    without wrap-around. *)
Definition pressed_keys_total (m : gmap N human_interface_device) : Z :=
  foldr (λ it acc, Z.of_nat (length (pressed_keys it.2)) + acc) 0 (map_to_list m).

Definition is_logger_warn (c : call) : bool :=
  match c with
  | logger_warn _ => true
  | _ => false
  end.



(** The events whose blocks assign [grabbed_]. *)
Definition assigns_grabbed (e : event) : bool :=
  match e with
  | ev_grab_timer _ _ _ | ev_ungrab_devices => true
  | _ => false
  end.

(** The events whose blocks insert into or erase from [hids_]. *)
Definition is_hot_plug (e : event) : bool :=
  match e with
  | ev_device_matching _ _ _ | ev_device_removal _ _ => true
  | _ => false
  end.

Definition is_grab_timer_event (e : event) : bool :=
  match e with
  | ev_grab_timer _ _ _ => true
  | _ => false
  end.

(** Calls of the hot-plug match of [device], reported with the metadata
    [p], when [old] is what the registry held under the key. *)
Definition replaced_calls (device : N) (old : option human_interface_device) : list call :=
  match old with
  | Some _ => [hid_destroy device]
  | None => []
  end.

Definition matching_log (p : device_properties) : call :=
  logger_info_matching
    (default ""%string (prop_manufacturer p)) (default ""%string (prop_product p))
    (default 0 (prop_vendor_id p)) (default 0 (prop_product_id p))
    (default 0 (prop_location_id p)) (default ""%string (prop_serial_number p))
    (prop_registry_entry_id p).

(** What the match does with the new handle: seize it when the Grabbed Flag
    is set, observe it otherwise. *)
Definition attach_calls (flag : bool) (c : hid_system_client) (device : N)
    (hid : human_interface_device) : list call :=
  if flag then grab_calls c device hid else [hid_observe device].

Definition attach_effect (flag : bool) (c : hid_system_client)
    (hid : human_interface_device) : human_interface_device :=
  if flag then grab_effect c hid else hid_op_observe hid.

(** * Properties *)

(** ** Loops over the registry *)

(** Read a field through record updates. *)
Ltac read_fields :=
  cbn [hid_system_client_ hids_ grab_timer_ grab_retry_count_ grabbed_
       modifier_flag_manager_ simple_modifications_ timer_sources
       next_timer_source trace
       visit touch on_hid emit set_hid_system_client set_hids set_grab_timer
       set_grab_retry_count set_grabbed set_modifier_flag_manager
       set_simple_modifications set_timer_sources set_next_timer_source
       set_trace] in *.

(** Two states with the same fields are the same state. *)
Lemma device_grabber_eq (s1 s2 : device_grabber) :
  hid_system_client_ s1 = hid_system_client_ s2 →
  hids_ s1 = hids_ s2 →
  grab_timer_ s1 = grab_timer_ s2 →
  grab_retry_count_ s1 = grab_retry_count_ s2 →
  grabbed_ s1 = grabbed_ s2 →
  modifier_flag_manager_ s1 = modifier_flag_manager_ s2 →
  simple_modifications_ s1 = simple_modifications_ s2 →
  timer_sources s1 = timer_sources s2 →
  next_timer_source s1 = next_timer_source s2 →
  trace s1 = trace s2 →
  s1 = s2.
Proof. destruct s1, s2; cbn; congruence. Qed.

Ltac state_eq := apply device_grabber_eq; read_fields.

Lemma foldl_pointwise {A B} (f g : A → B → A) (l : list B) (a : A) :
  (∀ a b, f a b = g a b) → foldl f a l = foldl g a l.
Proof.
  intros Hfg. revert a. induction l as [|b l IH]; intros a; [done |].
  cbn [foldl]. by rewrite Hfg, IH.
Qed.

Section loops.
Context (F : hid_system_client → human_interface_device → human_interface_device).
Context (G : hid_system_client → N → option human_interface_device → list call).

Lemma visit_hid_system_client d s :
  hid_system_client_ (visit F G d s) = hid_system_client_ s.
Proof. reflexivity. Qed.

Lemma foldl_alter_lookup (f : human_interface_device → human_interface_device)
    (ks : list N) (m : gmap N human_interface_device) (k : N) :
  NoDup ks →
  foldl (λ acc d, alter f d acc) m ks !! k
  = if decide (k ∈ ks) then f <$> m !! k else m !! k.
Proof.
  revert m. induction ks as [|d ks IH]; intros m Hnd; cbn [foldl].
  - case_decide as Hk; [by apply elem_of_nil in Hk | done].
  - apply NoDup_cons in Hnd as [Hd Hnd]. rewrite IH by done.
    destruct (decide (k = d)) as [->|Hne].
    + rewrite lookup_alter_eq.
      repeat case_decide; try done.
      exfalso. match goal with H : ¬ _ ∈ _ :: _ |- _ => apply H end.
      apply elem_of_cons. by left.
    + rewrite lookup_alter_ne by done.
      repeat case_decide; try done.
      * exfalso. match goal with H : ¬ _ ∈ _ :: _ |- _ => apply H end.
        apply elem_of_cons. by right.
      * match goal with H : _ ∈ _ :: _ |- _ => apply elem_of_cons in H as [?|?] end; done.
Qed.

Lemma foldl_alter_all (f : human_interface_device → human_interface_device)
    (m : gmap N human_interface_device) :
  foldl (λ acc d, alter f d acc) m (map_to_list m).*1 = f <$> m.
Proof.
  apply map_eq. intros k.
  rewrite foldl_alter_lookup by apply NoDup_fst_map_to_list.
  rewrite lookup_fmap. case_decide as Hk; [done |].
  destruct (m !! k) as [h|] eqn:E; [| done].
  exfalso. apply Hk. apply list_elem_of_fmap. exists (k, h).
  split; [done |]. by apply elem_of_map_to_list.
Qed.

Lemma foldl_visit (l : list (N * human_interface_device)) (s : device_grabber) :
  NoDup l.*1 →
  (∀ d h, (d, h) ∈ l → hids_ s !! d = Some h) →
  foldl (λ acc d, visit F G d acc) s l.*1
  = set_trace
      (trace s ++ flat_map (λ it, G (hid_system_client_ s) it.1 (Some it.2)) l)
      (set_hids
         (foldl (λ acc d, alter (F (hid_system_client_ s)) d acc) (hids_ s) l.*1) s).
Proof.
  revert s. induction l as [|[d h] l IH]; intros s Hnd Hl.
  - cbn [fmap list_fmap foldl flat_map]. state_eq; try done.
    by rewrite app_nil_r.
  - rewrite fmap_cons in Hnd. apply NoDup_cons in Hnd as [Hd Hnd].
    rewrite fmap_cons. cbn [foldl fst]. rewrite IH; [| done |].
    + rewrite visit_hid_system_client.
      assert (hids_ s !! d = Some h) as Hdh
        by (apply Hl, elem_of_cons; by left).
      state_eq; try done.
      rewrite Hdh. cbn [flat_map fst snd]. by rewrite <- app_assoc.
    + intros d' h' Hin. read_fields.
      rewrite lookup_alter_ne.
      * apply Hl. apply elem_of_cons. by right.
      * intros ->. apply Hd. apply list_elem_of_fmap. by exists (d', h').
Qed.

(** A loop whose body is a [visit] maps [F] over the registry and records
    the calls of the entries in iteration order. *)
Lemma for_each_hid_visit (body : N → device_grabber → device_grabber)
    (s : device_grabber) :
  (∀ d s, body d s = visit F G d s) →
  for_each_hid body s
  = set_trace
      (trace s ++ flat_map (λ it, G (hid_system_client_ s) it.1 (Some it.2))
                    (map_to_list (hids_ s)))
      (set_hids (F (hid_system_client_ s) <$> hids_ s) s).
Proof.
  intros Hbody. unfold for_each_hid.
  rewrite (foldl_pointwise _ (λ acc d, visit F G d acc)) by (intros; apply Hbody).
  rewrite foldl_visit.
  - by rewrite foldl_alter_all.
  - apply NoDup_fst_map_to_list.
  - intros d h. apply elem_of_map_to_list.
Qed.
End loops.

(** ** The loop bodies *)

Lemma on_hid_touch d c op s : on_hid d c op s = touch d [c] op s.
Proof. reflexivity. Qed.

Lemma touch_touch d cs1 op1 cs2 op2 s :
  touch d cs2 op2 (touch d cs1 op1 s) = touch d (cs1 ++ cs2) (op2 ∘ op1) s.
Proof.
  state_eq; try done.
  - by rewrite alter_alter_eq.
  - by rewrite <- app_assoc.
Qed.

Lemma touch_hid_system_client d cs op s :
  hid_system_client_ (touch d cs op s) = hid_system_client_ s.
Proof. reflexivity. Qed.

Lemma touch_agree d cs cs' op op' s :
  cs = cs' → (∀ h, hids_ s !! d = Some h → op h = op' h) →
  touch d cs op s = touch d cs' op' s.
Proof.
  intros -> Hop. unfold touch. f_equal. f_equal. by apply alter_ext.
Qed.

Lemma visit_touch F G d s :
  visit F G d s
  = touch d (G (hid_system_client_ s) d (hids_ s !! d)) (F (hid_system_client_ s)) s.
Proof. reflexivity. Qed.

Lemma grab_body_visit (d : N) (s : device_grabber) :
  clear_pressed_keys d (clear_changed_keys d (grab d s))
  = visit (λ c hid, clear_effect (grab_effect c hid)) grab_body_calls d s.
Proof.
  unfold clear_pressed_keys, clear_changed_keys, grab, unobserve.
  rewrite visit_touch.
  destruct (hids_ s !! d) as [h|] eqn:E.
  - unfold grab_body_calls, grab_calls, self_originated.
    destruct (is_pqrs_manufacturer (get_manufacturer h)) eqn:P.
    + rewrite ?on_hid_touch, ?touch_touch. apply touch_agree; [reflexivity |].
      intros h' Hh'. assert (h' = h) as -> by congruence.
      unfold grab_effect, self_originated. rewrite P. reflexivity.
    + rewrite ?on_hid_touch, ?touch_touch, ?touch_hid_system_client.
      unfold led_for.
      destruct (get_caps_lock_state (hid_system_client_ s)) as [[]|] eqn:C;
        rewrite ?on_hid_touch, ?touch_touch;
        (apply touch_agree; [reflexivity |]);
        intros h' Hh'; (assert (h' = h) as -> by congruence);
        unfold grab_effect, self_originated, led_for; rewrite P, C; reflexivity.
  - rewrite ?on_hid_touch, ?touch_touch. apply touch_agree; [reflexivity |].
    intros h' Hh'. congruence.
Qed.

Lemma ungrab_body_visit (d : N) (s : device_grabber) :
  clear_pressed_keys d (clear_changed_keys d (ungrab d s))
  = visit (λ _ hid, clear_effect (ungrab_effect hid)) ungrab_body_calls d s.
Proof.
  unfold clear_pressed_keys, clear_changed_keys, ungrab, observe.
  rewrite visit_touch.
  destruct (hids_ s !! d) as [h|] eqn:E.
  - unfold ungrab_body_calls, ungrab_calls, self_originated.
    destruct (is_pqrs_manufacturer (get_manufacturer h)) eqn:P;
      rewrite ?on_hid_touch, ?touch_touch;
      (apply touch_agree; [reflexivity |]);
      intros h' Hh'; (assert (h' = h) as -> by congruence);
      unfold ungrab_effect, self_originated; rewrite P; reflexivity.
  - rewrite ?on_hid_touch, ?touch_touch. apply touch_agree; [reflexivity |].
    intros h' Hh'. congruence.
Qed.

Lemma led_body_visit (st : krbn.led_state) (d : N) (s : device_grabber) :
  on_hid d (hid_set_caps_lock_led_state d st) (hid_op_set_caps_lock_led_state st) s
  = visit (λ _, hid_op_set_caps_lock_led_state st)
          (λ _ d _, [hid_set_caps_lock_led_state d st]) d s.
Proof. reflexivity. Qed.

(** ** Closed forms of the two transitions *)

Lemma cancel_grab_timer_closed (s : device_grabber) :
  cancel_grab_timer s
  = set_grab_timer None
      (set_trace (trace s ++ cancel_calls (grab_timer_ s))
         (set_timer_sources
            match grab_timer_ s with
            | Some t => delete t (timer_sources s)
            | None => timer_sources s
            end s)).
Proof.
  unfold cancel_grab_timer.
  destruct (grab_timer_ s) as [t|] eqn:E; state_eq; try done.
  cbn [cancel_calls]. by rewrite app_nil_r.
Qed.

Lemma grab_completion_closed (s : device_grabber) :
  grab_completion s
  = {| hid_system_client_ := set_caps_lock_state false (hid_system_client_ s);
       hids_ := (λ hid, clear_effect (grab_effect (hid_system_client_ s) hid)) <$> hids_ s;
       grab_timer_ := None;
       grab_retry_count_ := grab_retry_count_ s;
       grabbed_ := true;
       modifier_flag_manager_ := [];
       simple_modifications_ := simple_modifications_ s;
       timer_sources :=
         match grab_timer_ s with
         | Some t => delete t (timer_sources s)
         | None => timer_sources s
         end;
       next_timer_source := next_timer_source s;
       trace :=
         trace s
         ++ flat_map (λ it, grab_calls (hid_system_client_ s) it.1 it.2 ++ clear_calls it.1)
              (map_to_list (hids_ s))
         ++ [hid_system_set_caps_lock_state false; logger_info "devices are grabbed"]
         ++ cancel_calls (grab_timer_ s) |}.
Proof.
  unfold grab_completion.
  rewrite (for_each_hid_visit _ _ _ _ grab_body_visit).
  rewrite cancel_grab_timer_closed. unfold modifier_flag_manager_reset.
  state_eq; try done.
  by rewrite <- !app_assoc.
Qed.

Lemma ungrab_devices_closed (s : device_grabber) :
  grabbed_ s = true →
  ungrab_devices s
  = {| hid_system_client_ := set_caps_lock_state false (hid_system_client_ s);
       hids_ := (λ hid, clear_effect (ungrab_effect hid)) <$> hids_ s;
       grab_timer_ := None;
       grab_retry_count_ := grab_retry_count_ s;
       grabbed_ := false;
       modifier_flag_manager_ := [];
       simple_modifications_ := simple_modifications_ s;
       timer_sources :=
         match grab_timer_ s with
         | Some t => delete t (timer_sources s)
         | None => timer_sources s
         end;
       next_timer_source := next_timer_source s;
       trace :=
         trace s
         ++ cancel_calls (grab_timer_ s)
         ++ flat_map (λ it, ungrab_calls it.1 it.2 ++ clear_calls it.1)
              (map_to_list (hids_ s))
         ++ [hid_system_set_caps_lock_state false; console_user_stop_key_repeat;
             logger_info "devices are ungrabbed"] |}.
Proof.
  intros Hg. unfold ungrab_devices. rewrite Hg. cbn [negb].
  rewrite (for_each_hid_visit _ _ _ _ ungrab_body_visit).
  rewrite cancel_grab_timer_closed. unfold modifier_flag_manager_reset.
  state_eq; try done.
  by rewrite <- !app_assoc.
Qed.

Lemma set_caps_lock_led_state_closed (st : krbn.led_state) (s : device_grabber) :
  set_caps_lock_led_state st s
  = set_trace
      (trace s ++ flat_map (λ it, [hid_set_caps_lock_led_state it.1 st])
                    (map_to_list (hids_ s)))
      (set_hids (hid_op_set_caps_lock_led_state st <$> hids_ s) s).
Proof.
  unfold set_caps_lock_led_state.
  by rewrite (for_each_hid_visit _ _ _ _ (led_body_visit st)).
Qed.

(** With both preconditions met the handler goes straight to the grab. *)
Lemma grab_timer_event_handler_pass timer last now (s : device_grabber) :
  grabbed_ s = false →
  get_all_devices_pressed_keys_count s = 0 →
  grab_timer_event_handler timer last now true s = grab_completion s.
Proof.
  intros Hg Hc. unfold grab_timer_event_handler. by rewrite Hg, Hc.
Qed.

(** ** Grab completion *)

Lemma lookup_fmap_hid (f : human_interface_device → human_interface_device)
    (m : gmap N human_interface_device) (d : N) (hid : human_interface_device) :
  m !! d = Some hid → (f <$> m) !! d = Some (f hid).
Proof. intros H. by rewrite lookup_fmap, H. Qed.




(** ** Ungrab *)

(** C4: [ungrab_devices] run with the Grabbed Flag true sets the flag false
    and cancels an armed grab timer; walks the registry and, for every
    device that is not self-originated, releases the seize and resumes
    observation, then clears the device's buffered key state; resets the
    Modifier Flag Tracker; forces the hardware caps-lock state to off;
    cancels key repeat on the session client; and logs "devices are
    ungrabbed", in this order. *)
Theorem ungrab_devices_when_grabbed (s : device_grabber) :
  grabbed_ s = true →
  let s' := ungrab_devices s in
  grabbed_ s' = false
  ∧ grab_timer_ s' = None
  ∧ (∀ t, grab_timer_ s = Some t → timer_sources s' !! t = None)
  ∧ trace s'
    = trace s
      ++ cancel_calls (grab_timer_ s)
      ++ flat_map (λ it, ungrab_calls it.1 it.2 ++ clear_calls it.1)
           (map_to_list (hids_ s))
      ++ [hid_system_set_caps_lock_state false; console_user_stop_key_repeat;
          logger_info "devices are ungrabbed"]
  ∧ hids_ s' = (λ hid, clear_effect (ungrab_effect hid)) <$> hids_ s
  ∧ modifier_flag_manager_ s' = []
  ∧ caps_lock_hardware (hid_system_client_ s') = false
  ∧ (∀ d hid, hids_ s !! d = Some hid → self_originated hid = false →
       ungrab_calls d hid = [hid_ungrab d; hid_observe d]
       ∧ ∃ hid', hids_ s' !! d = Some hid'
                 ∧ capability_state hid' = observed
                 ∧ changed_keys hid' = [] ∧ pressed_keys hid' = []).
Proof.
  intros Hg s'. subst s'. rewrite ungrab_devices_closed by done.
  cbn [grabbed_ trace hids_ modifier_flag_manager_ hid_system_client_
       grab_timer_ timer_sources set_caps_lock_state caps_lock_hardware].
  split_and!; try done.
  - intros t ->. apply lookup_delete_eq.
  - intros d hid Hd Hso. split.
    + unfold ungrab_calls. by rewrite Hso.
    + eexists. split; [by apply lookup_fmap_hid |].
      unfold ungrab_effect. by rewrite Hso.
Qed.

Lemma ungrab_devices_when_grabbed_witness :
  grabbed_ (ungrab_devices two_devices_grabbed) = false
  ∧ grab_timer_ (ungrab_devices two_devices_grabbed) = None.
Proof.
  pose proof (ungrab_devices_when_grabbed two_devices_grabbed
                ltac:(vm_compute; reflexivity)) as H.
  split; apply H.
Defined.

(** ** The event router *)

Section router.
Variable tbl : usage_tables.

(** The two [case] labels of the [switch] are different constants. *)
Hypothesis pages_differ :
  kHIDPage_KeyboardOrKeypad tbl ≠ kHIDPage_AppleVendorTopCase tbl.

(** C5: an event delivered while the Grabbed Flag is false reaches the
    remapping engine with no call; while the flag is true, an event of the
    keyboard usage page whose usage lies strictly between the
    error/undefined and the reserved sentinel makes exactly one
    [handle_keyboard_event (identity, usage as key code, pressed)] call,
    with [pressed] true exactly when the raw integer value is not zero; the
    vendor function-key usage of the Apple top-case page makes exactly one
    call with the key code [vk_fn_modifier]; every other usage page or
    usage makes no call.  The router changes nothing but the record of
    calls: neither the Grabbed Flag nor the Device Registry. *)
Theorem value_callback_routing (device : human_interface_device)
    (usage_page usage integer_value : Z) (s : device_grabber) :
  let s' := value_callback tbl device usage_page usage integer_value s in
  let pressed := negb (integer_value =? 0) in
  (pressed = true ↔ integer_value ≠ 0)
  ∧ s' = set_trace (trace s') s
  ∧ grabbed_ s' = grabbed_ s ∧ hids_ s' = hids_ s
  ∧ (grabbed_ s = false → s' = s)
  ∧ (grabbed_ s = true →
     usage_page = kHIDPage_KeyboardOrKeypad tbl →
     kHIDUsage_KeyboardErrorUndefined tbl < usage < kHIDUsage_Keyboard_Reserved tbl →
     trace s' = trace s ++ [handle_keyboard_event (get_registry_entry_id device) usage pressed])
  ∧ (grabbed_ s = true →
     usage_page = kHIDPage_AppleVendorTopCase tbl →
     usage = kHIDUsage_AV_TopCase_KeyboardFn tbl →
     trace s' = trace s ++ [handle_keyboard_event (get_registry_entry_id device)
                              (vk_fn_modifier tbl) pressed])
  ∧ (¬ (usage_page = kHIDPage_KeyboardOrKeypad tbl
        ∧ kHIDUsage_KeyboardErrorUndefined tbl < usage < kHIDUsage_Keyboard_Reserved tbl) →
     ¬ (usage_page = kHIDPage_AppleVendorTopCase tbl
        ∧ usage = kHIDUsage_AV_TopCase_KeyboardFn tbl) →
     s' = s).
Proof.
  intros s' pressed. subst s' pressed. unfold value_callback.
  split_and!.
  - destruct (Z.eqb_spec integer_value 0); cbn; split; intros; done.
  - repeat case_match; by state_eq.
  - by repeat case_match.
  - by repeat case_match.
  - by intros ->.
  - intros -> -> [Hlo Hhi]. cbn [negb]. rewrite Z.eqb_refl.
    apply Z.ltb_lt in Hlo, Hhi. by rewrite Hlo, Hhi.
  - intros -> -> ->. cbn [negb].
    destruct (Z.eqb_spec (kHIDPage_AppleVendorTopCase tbl) (kHIDPage_KeyboardOrKeypad tbl))
      as [Heq|_]; [by destruct pages_differ |].
    by rewrite !Z.eqb_refl.
  - intros Hk Hv. destruct (grabbed_ s); cbn [negb]; [| done].
    destruct (Z.eqb_spec usage_page (kHIDPage_KeyboardOrKeypad tbl)) as [Hp|Hp].
    + destruct (Z.ltb_spec (kHIDUsage_KeyboardErrorUndefined tbl) usage);
        destruct (Z.ltb_spec usage (kHIDUsage_Keyboard_Reserved tbl));
        cbn [andb]; try done.
      destruct Hk. split; [done | lia].
    + destruct (Z.eqb_spec usage_page (kHIDPage_AppleVendorTopCase tbl)); [| done].
      destruct (Z.eqb_spec usage (kHIDUsage_AV_TopCase_KeyboardFn tbl)); [| done].
      by destruct Hv.
Qed.
End router.

Lemma value_callback_routing_witness :
  trace (value_callback macos_usage_tables
           (hid_op_grab (new_human_interface_device apple_keyboard))
           0x07 0x04 1 two_devices_grabbed)
  = trace two_devices_grabbed ++ [handle_keyboard_event 4294968320 0x04 true].
Proof.
  pose proof (value_callback_routing macos_usage_tables
                ltac:(vm_compute; discriminate)
                (hid_op_grab (new_human_interface_device apple_keyboard))
                0x07 0x04 1 two_devices_grabbed) as H.
  cbv zeta in H. destruct H as (_ & _ & _ & _ & _ & H & _).
  apply H; [vm_compute; reflexivity | reflexivity | vm_compute; split; reflexivity].
Defined.

(** ** The grab timer *)

Lemma grab_devices_closed now (s : device_grabber) :
  grab_devices now s
  = {| hid_system_client_ := hid_system_client_ s;
       hids_ := hids_ s;
       grab_timer_ := Some (next_timer_source s);
       grab_retry_count_ := 0;
       grabbed_ := grabbed_ s;
       modifier_flag_manager_ := modifier_flag_manager_ s;
       simple_modifications_ := simple_modifications_ s;
       timer_sources :=
         <[next_timer_source s := now - 1]>
           match grab_timer_ s with
           | Some t => delete t (timer_sources s)
           | None => timer_sources s
           end;
       next_timer_source := N.succ (next_timer_source s);
       trace := trace s ++ cancel_calls (grab_timer_ s)
                ++ [dispatch_source_resume (next_timer_source s)] |}.
Proof.
  unfold grab_devices. rewrite cancel_grab_timer_closed.
  state_eq; try done. by rewrite <- app_assoc.
Qed.

Lemma same_timers_inv s s' : same_timers s s' → timer_inv s → timer_inv s'.
Proof. intros (Ht & Hs & Hn) [Hd Hlt]. split; rewrite ?Ht, ?Hs, ?Hn; done. Qed.

Lemma same_timers_refl s : same_timers s s.
Proof. by repeat split. Qed.

Lemma same_timers_touch d cs op s : same_timers s (touch d cs op s).
Proof. by repeat split. Qed.

Lemma same_timers_grab d s : same_timers s (grab d s).
Proof.
  unfold grab, unobserve. repeat case_match;
    rewrite ?on_hid_touch, ?touch_touch;
    auto using same_timers_refl, same_timers_touch.
Qed.

Lemma timer_inv_grab_devices now s : timer_inv s → timer_inv (grab_devices now s).
Proof.
  intros [Hd Hlt]. rewrite grab_devices_closed. split; read_fields.
  - rewrite dom_insert_L. cbn [alive_timers].
    destruct (grab_timer_ s) as [t|]; cbn [alive_timers] in Hd.
    + rewrite dom_delete_L, Hd. set_solver.
    + rewrite Hd. set_solver.
  - intros t [= <-]. lia.
Qed.

Lemma timer_inv_cancelled (s s' : device_grabber) :
  grab_timer_ s' = None →
  timer_sources s' = match grab_timer_ s with
                     | Some t => delete t (timer_sources s)
                     | None => timer_sources s
                     end →
  timer_inv s → timer_inv s'.
Proof.
  intros Ht Hs [Hd _]. split; rewrite Ht; [| done]. rewrite Hs.
  cbn [alive_timers]. destruct (grab_timer_ s) as [t|]; cbn [alive_timers] in Hd.
  - rewrite dom_delete_L, Hd. set_solver.
  - done.
Qed.

Lemma timer_inv_grab_completion s : timer_inv s → timer_inv (grab_completion s).
Proof.
  apply timer_inv_cancelled; by rewrite grab_completion_closed.
Qed.

Lemma timer_inv_ungrab_devices s : timer_inv s → timer_inv (ungrab_devices s).
Proof.
  destruct (grabbed_ s) eqn:Hg.
  - apply timer_inv_cancelled; by rewrite ungrab_devices_closed.
  - unfold ungrab_devices. by rewrite Hg.
Qed.

Lemma timer_inv_grab_timer_fire timer now is_ready s :
  timer_inv s → timer_inv (grab_timer_fire timer now is_ready s).
Proof.
  intros Hinv. unfold grab_timer_fire.
  destruct (timer_sources s !! timer) as [last|] eqn:E; [| done].
  unfold grab_timer_event_handler.
  repeat case_match; auto using timer_inv_grab_completion.
  all: destruct Hinv as [Hd Hlt]; split; read_fields; [| done].
  all: rewrite dom_insert_L, <- Hd.
  all: assert (timer ∈ dom (timer_sources s)) by (apply elem_of_dom; eauto).
  all: set_solver.
Qed.

Lemma timer_inv_step tbl e s : timer_inv s → timer_inv (step tbl e s).
Proof.
  intros Hinv. destruct e; cbn [step].
  - by apply timer_inv_grab_devices.
  - by apply timer_inv_grab_timer_fire.
  - by apply timer_inv_ungrab_devices.
  - done.
  - by rewrite set_caps_lock_led_state_closed.
  - done.
  - done.
  - unfold static_device_matching_callback, device_matching_callback.
    repeat case_match; try done.
    all: first [ eapply same_timers_inv; [apply same_timers_grab |]
               | unfold observe; rewrite on_hid_touch;
                 eapply same_timers_inv; [apply same_timers_touch |] ].
    all: done.
  - unfold static_device_removal_callback, device_removal_callback.
    by repeat case_match.
  - unfold value_callback. by repeat case_match.
  - done.
  - done.
Qed.

Lemma timer_inv_new c : timer_inv (device_grabber_new c).
Proof. split; [| done]. cbn [device_grabber_new timer_sources grab_timer_ alive_timers]. apply dom_empty_L. Qed.

Lemma timer_inv_reachable tbl s : reachable tbl s → timer_inv s.
Proof.
  induction 1 as [c|e s _ IH]; [apply timer_inv_new | by apply timer_inv_step].
Qed.

Lemma size_alive_timers (timer : option N) : (size (alive_timers timer) ≤ 1)%nat.
Proof.
  destruct timer; cbn [alive_timers].
  - rewrite size_singleton. lia.
  - rewrite size_empty. lia.
Qed.

(** C6: [grab_devices], from any state and whatever the retry count was,
    first cancels and discards the timer [grab_timer_] holds, then sets the
    retry count to 0, creates a fresh timer and resumes it, and changes
    nothing else.  In every reachable state at most one grab timer is alive,
    and it is the one [grab_timer_] holds, so exactly one timer is alive
    after [grab_devices]; a second [grab_devices] right after cancels that
    timer before it arms its own, and again exactly one timer is alive. *)
Theorem at_most_one_grab_timer tbl (s : device_grabber) :
  (∀ now (s0 : device_grabber),
     let s1 := grab_devices now s0 in
     let t1 := next_timer_source s0 in
     grab_retry_count_ s1 = 0
     ∧ grab_timer_ s1 = Some t1
     ∧ timer_sources s1 !! t1 = Some (now - 1)
     ∧ (∀ t0, grab_timer_ s0 = Some t0 → t0 ≠ t1 → timer_sources s1 !! t0 = None)
     ∧ trace s1 = trace s0 ++ cancel_calls (grab_timer_ s0) ++ [dispatch_source_resume t1]
     ∧ hids_ s1 = hids_ s0 ∧ grabbed_ s1 = grabbed_ s0
     ∧ modifier_flag_manager_ s1 = modifier_flag_manager_ s0
     ∧ simple_modifications_ s1 = simple_modifications_ s0
     ∧ hid_system_client_ s1 = hid_system_client_ s0)
  ∧ (reachable tbl s →
     (size (dom (timer_sources s)) ≤ 1)%nat
     ∧ dom (timer_sources s) = alive_timers (grab_timer_ s)
     ∧ ∀ now,
         let s1 := grab_devices now s in
         let t1 := next_timer_source s in
         grab_timer_ s1 = Some t1
         ∧ timer_sources s1 = {[t1 := now - 1]}
         ∧ grab_retry_count_ s1 = 0
         ∧ (∀ t0, grab_timer_ s = Some t0 → t0 ≠ t1 ∧ timer_sources s1 !! t0 = None)
         ∧ trace s1 = trace s ++ cancel_calls (grab_timer_ s) ++ [dispatch_source_resume t1]
         ∧ ∀ now',
             let s2 := grab_devices now' s1 in
             let t2 := N.succ t1 in
             grab_timer_ s2 = Some t2
             ∧ timer_sources s2 = {[t2 := now' - 1]}
             ∧ timer_sources s2 !! t1 = None
             ∧ grab_retry_count_ s2 = 0
             ∧ trace s2 = trace s1 ++ [dispatch_source_cancel t1; dispatch_source_resume t2]).
Proof.
  split.
  { intros now s0 s1 t1. subst s1 t1. rewrite grab_devices_closed. read_fields.
    split_and!; try done.
    - apply lookup_insert_eq.
    - intros t0 Ht0 Hne. rewrite lookup_insert_ne by done.
      rewrite Ht0. apply lookup_delete_eq. }
  intros Hr. pose proof (timer_inv_reachable _ _ Hr) as [Hd Hlt].
  assert (match grab_timer_ s with
          | Some t => delete t (timer_sources s)
          | None => timer_sources s
          end = ∅) as Hempty.
  { apply dom_empty_iff_L. destruct (grab_timer_ s) as [t|]; cbn [alive_timers] in Hd.
    - rewrite dom_delete_L, Hd. set_solver.
    - done. }
  split_and!.
  - rewrite Hd. apply size_alive_timers.
  - done.
  - intros now s1 t1. subst s1 t1. rewrite grab_devices_closed. read_fields.
    rewrite Hempty. split_and!; try done.
    + intros t0 Ht0. specialize (Hlt t0 Ht0).
      assert (t0 ≠ next_timer_source s) by lia.
      split; [done |]. by rewrite lookup_insert_ne.
    + intros now'. rewrite grab_devices_closed. read_fields.
      rewrite delete_insert_eq, delete_empty.
      split_and!; try done.
      rewrite lookup_insert_ne by lia. apply lookup_empty.
Qed.

Lemma at_most_one_grab_timer_witness :
  grab_retry_count_ two_devices_retried = 3
  ∧ grab_retry_count_ (grab_devices 101 two_devices_retried) = 0
  ∧ (size (dom (timer_sources two_devices_armed)) ≤ 1)%nat
  ∧ grab_timer_ (grab_devices 101 two_devices_armed) = Some 2%N.
Proof.
  assert (reachable macos_usage_tables two_devices_armed) as Hr
    by (repeat apply reachable_step; apply reachable_new).
  pose proof (at_most_one_grab_timer macos_usage_tables two_devices_armed)
    as [Hany Hreach].
  destruct (Hreach Hr) as (H1 & _ & H3).
  split_and!.
  - reflexivity.
  - apply (Hany 101 two_devices_retried).
  - exact H1.
  - destruct (H3 101) as (H & _). exact H.
Defined.

(** ** Ungrab when nothing is grabbed *)

(** C7: [ungrab_devices] called while the Grabbed Flag is false returns at
    once: the whole state is unchanged (no call on a device handle, on the
    caps-lock facility, on the session client or on the logger, no timer
    cancelled, Modifier Flag Tracker untouched), and calling it again
    changes nothing either. *)
Theorem ungrab_devices_when_ungrabbed (s : device_grabber) :
  grabbed_ s = false →
  ungrab_devices s = s
  ∧ new_calls s (ungrab_devices s) = []
  ∧ ungrab_devices (ungrab_devices s) = ungrab_devices s.
Proof.
  intros Hg.
  assert (ungrab_devices s = s) as Hs by (unfold ungrab_devices; by rewrite Hg).
  rewrite !Hs. split_and!; try done.
  unfold new_calls. apply drop_all.
Qed.

Lemma ungrab_devices_when_ungrabbed_witness :
  ungrab_devices two_devices_armed = two_devices_armed.
Proof.
  pose proof (ungrab_devices_when_ungrabbed two_devices_armed
                ltac:(vm_compute; reflexivity)) as [H _].
  exact H.
Defined.

(** ** Device removal *)

(** C8: removing an identity that is not in the Device Registry changes
    nothing: registry, every other field and the record of calls stay as they
    are, so no handle is released and nothing is logged or raised, whatever
    status the operating system passes.  For an identity that is present,
    the entry is looked up, its ids are logged and the entry is erased,
    which releases its handle. *)
Theorem device_removal_callback_spec (device : N) (s : device_grabber) :
  (hids_ s !! device = None →
   device_removal_callback device s = s
   ∧ ∀ result_success, static_device_removal_callback result_success device s = s)
  ∧ (∀ dev, device ≠ 0%N → hids_ s !! device = Some dev →
     let s' := static_device_removal_callback true device s in
     s' = device_removal_callback device s
     ∧ hids_ s' = delete device (hids_ s)
     ∧ hids_ s' !! device = None
     ∧ trace s' = trace s ++ [logger_info_removal (default 0 (get_vendor_id dev))
                                (default 0 (get_product_id dev))
                                (default 0 (get_location_id dev));
                              hid_destroy device]
     ∧ s' = set_trace (trace s') (set_hids (hids_ s') s)).
Proof.
  split.
  - intros Hnone.
    assert (device_removal_callback device s = s) as Hs.
    { unfold device_removal_callback. rewrite Hnone. by case_match. }
    split; [done |]. intros []; [apply Hs | done].
  - intros dev Hnz Hdev s'. subst s'.
    unfold static_device_removal_callback, device_removal_callback.
    apply N.eqb_neq in Hnz. rewrite Hnz, Hdev. cbn [negb]. read_fields.
    split_and!; try done.
    + apply lookup_delete_eq.
    + by rewrite <- app_assoc.
Qed.

Lemma device_removal_callback_spec_witness :
  device_removal_callback 8%N two_devices = two_devices
  ∧ hids_ (static_device_removal_callback true 7%N two_devices) !! 7%N = None.
Proof.
  pose proof (device_removal_callback_spec 8%N two_devices) as [H8 _].
  pose proof (device_removal_callback_spec 7%N two_devices) as [_ H7].
  split.
  - apply H8. vm_compute; reflexivity.
  - apply (H7 (hid_op_observe (new_human_interface_device apple_keyboard)));
      [discriminate | vm_compute; reflexivity].
Defined.

(** ** The LED on grab *)

(** C9: when [grab] runs on a registered device that is not
    self-originated, it stops observing, seizes, and sets the caps-lock LED
    of the device: to on when the system caps-lock query returns the value
    true, and to off both when it returns false and when it returns no
    value. *)
Theorem grab_sets_caps_lock_led (device : N) (hid : human_interface_device)
    (s : device_grabber) :
  hids_ s !! device = Some hid →
  self_originated hid = false →
  let led := match get_caps_lock_state (hid_system_client_ s) with
             | Some true => krbn.on
             | Some false => krbn.off
             | None => krbn.off
             end in
  trace (grab device s)
  = trace s ++ [hid_unobserve device; hid_grab device;
                hid_set_caps_lock_led_state device led]
  ∧ caps_lock_led <$> hids_ (grab device s) !! device = Some (Some led)
  ∧ (led = krbn.on ↔ get_caps_lock_state (hid_system_client_ s) = Some true).
Proof.
  intros Hd Hso led. subst led. unfold grab, unobserve.
  unfold self_originated in Hso. rewrite Hd, Hso.
  rewrite ?on_hid_touch, ?touch_touch, ?touch_hid_system_client.
  destruct (get_caps_lock_state (hid_system_client_ s)) as [[]|];
    rewrite ?on_hid_touch, ?touch_touch; read_fields;
    rewrite lookup_alter_eq, Hd; split_and!; try done;
    split; intros; done.
Qed.

Lemma grab_sets_caps_lock_led_witness :
  trace (grab 7%N two_devices)
  = trace two_devices ++ [hid_unobserve 7%N; hid_grab 7%N;
                          hid_set_caps_lock_led_state 7%N krbn.on].
Proof.
  pose proof (grab_sets_caps_lock_led 7%N
                (hid_op_observe (new_human_interface_device apple_keyboard)) two_devices
                ltac:(vm_compute; reflexivity) ltac:(vm_compute; reflexivity))
    as [H _].
  exact H.
Defined.

(** ** Clearing the key buffers *)

Lemma clear_calls_in_flat_map (calls : N → human_interface_device → list call)
    (m : gmap N human_interface_device) (d : N) (hid : human_interface_device) (c : call) :
  m !! d = Some hid → c ∈ clear_calls d →
  c ∈ flat_map (λ it, calls it.1 it.2 ++ clear_calls it.1) (map_to_list m).
Proof.
  intros Hd Hc. apply list_elem_of_In, in_flat_map. exists (d, hid). split.
  - apply list_elem_of_In. by apply elem_of_map_to_list.
  - apply list_elem_of_In, elem_of_app. by right.
Qed.

Lemma new_calls_app (s s' : device_grabber) (cs : list call) :
  trace s' = trace s ++ cs → new_calls s s' = cs.
Proof. intros H. unfold new_calls. by rewrite H, drop_app_length. Qed.

(** C10: the grab completion (which a tick with both preconditions met
    runs) and [ungrab_devices] with the Grabbed Flag true clear the
    changed-keys and the pressed-keys buffer of every device in the registry:
    both clear calls are made on every registered handle and both buffers are
    empty afterwards.  That includes a self-originated device, although the
    per-device grab and ungrab skip it: its capability state stays as it
    was. *)
Theorem key_buffers_cleared_on_every_device (device : N) (hid : human_interface_device)
    (s : device_grabber) :
  hids_ s !! device = Some hid →
  (∀ timer last now,
     grabbed_ s = false → get_all_devices_pressed_keys_count s = 0 →
     grab_timer_event_handler timer last now true s = grab_completion s)
  ∧ (let s' := grab_completion s in
     hid_clear_changed_keys device ∈ new_calls s s'
     ∧ hid_clear_pressed_keys device ∈ new_calls s s'
     ∧ ∃ hid', hids_ s' !! device = Some hid'
               ∧ changed_keys hid' = [] ∧ pressed_keys hid' = []
               ∧ (self_originated hid = true →
                  grab_calls (hid_system_client_ s) device hid = []
                  ∧ capability_state hid' = capability_state hid))
  ∧ (grabbed_ s = true →
     let s' := ungrab_devices s in
     hid_clear_changed_keys device ∈ new_calls s s'
     ∧ hid_clear_pressed_keys device ∈ new_calls s s'
     ∧ ∃ hid', hids_ s' !! device = Some hid'
               ∧ changed_keys hid' = [] ∧ pressed_keys hid' = []
               ∧ (self_originated hid = true →
                  ungrab_calls device hid = []
                  ∧ capability_state hid' = capability_state hid)).
Proof.
  intros Hd. split_and!.
  - intros. by apply grab_timer_event_handler_pass.
  - intros s'. subst s'.
    rewrite (new_calls_app s (grab_completion s) _
               ltac:(rewrite grab_completion_closed; reflexivity)).
    rewrite grab_completion_closed. read_fields. split_and!.
    + apply elem_of_app. left. eapply clear_calls_in_flat_map; [done |].
      apply elem_of_cons. by left.
    + apply elem_of_app. left. eapply clear_calls_in_flat_map; [done |].
      apply elem_of_cons. right. apply elem_of_cons. by left.
    + eexists. split; [by apply lookup_fmap_hid |]. split_and!; try done.
      intros Hso. unfold grab_calls, grab_effect. by rewrite Hso.
  - intros Hg s'. subst s'.
    rewrite (new_calls_app s (ungrab_devices s) _
               ltac:(rewrite ungrab_devices_closed by done; reflexivity)).
    rewrite ungrab_devices_closed by done. read_fields. split_and!.
    + apply elem_of_app. right. apply elem_of_app. left.
      eapply clear_calls_in_flat_map; [done |]. apply elem_of_cons. by left.
    + apply elem_of_app. right. apply elem_of_app. left.
      eapply clear_calls_in_flat_map; [done |].
      apply elem_of_cons. right. apply elem_of_cons. by left.
    + eexists. split; [by apply lookup_fmap_hid |]. split_and!; try done.
      intros Hso. unfold ungrab_calls, ungrab_effect. by rewrite Hso.
Qed.

Lemma key_buffers_cleared_on_every_device_witness :
  hid_clear_changed_keys 9%N ∈ new_calls two_devices_armed (grab_completion two_devices_armed)
  ∧ hid_clear_pressed_keys 9%N
    ∈ new_calls two_devices_grabbed (ungrab_devices two_devices_grabbed).
Proof.
  pose proof (key_buffers_cleared_on_every_device 9%N
                (hid_op_observe (new_human_interface_device virtual_keyboard))
                two_devices_armed ltac:(vm_compute; reflexivity)) as (_ & Hg & _).
  pose proof (key_buffers_cleared_on_every_device 9%N
                (hid_op_observe (new_human_interface_device virtual_keyboard))
                two_devices_grabbed ltac:(vm_compute; reflexivity)) as (_ & _ & Hu).
  split.
  - apply Hg.
  - apply Hu. vm_compute; reflexivity.
Defined.

(** ** The warning block of the timer handler *)

(** With a precondition unmet the handler returns early only when the
    clock has moved to another second since the last warning: it then
    records the second, warns and leaves everything else alone. *)
Lemma grab_timer_event_handler_warns timer last now is_ready (s : device_grabber) :
  grabbed_ s = false →
  is_ready = false ∨ 0 < get_all_devices_pressed_keys_count s →
  last ≠ now →
  let s' := grab_timer_event_handler timer last now is_ready s in
  grabbed_ s' = false
  ∧ hids_ s' = hids_ s
  ∧ grab_timer_ s' = grab_timer_ s
  ∧ timer_sources s' = <[timer := now]> (timer_sources s)
  ∧ ∃ message, new_calls s s' = [logger_warn message].
Proof.
  intros Hg Hpre Hne s'. subst s'. unfold grab_timer_event_handler. rewrite Hg.
  apply Z.eqb_neq in Hne. rewrite Hne. cbn [negb].
  assert (∃ message,
            (if 0 <? get_all_devices_pressed_keys_count s
             then Some msg_pressed_keys
             else if negb is_ready then Some msg_not_ready else None)
            = Some message) as [message ->].
  { destruct Hpre as [-> | Hc].
    - case_match; eauto.
    - apply Z.ltb_lt in Hc. rewrite Hc. eauto. }
  split_and!; try done.
  exists message. by apply new_calls_app.
Qed.

(** In the same second as the last warning the inner [if] is skipped, and
    with it the [return]: the handler falls through to the grab although a
    precondition is unmet. *)
Lemma grab_timer_event_handler_falls_through timer now is_ready (s : device_grabber) :
  grabbed_ s = false →
  is_ready = false ∨ 0 < get_all_devices_pressed_keys_count s →
  grab_timer_event_handler timer now now is_ready s = grab_completion s.
Proof.
  intros Hg Hpre. unfold grab_timer_event_handler. rewrite Hg, Z.eqb_refl.
  cbn [negb]. destruct Hpre as [-> | Hc].
  - cbn [negb]. by case_match.
  - apply Z.ltb_lt in Hc. by rewrite Hc.
Qed.

(** C1 (the code departs from it): a key of the keyboard is held down,
    [grab_devices] was called at second 100 and the first tick, still in
    second 100, has warned and returned.  On the next tick in the same second
    the key is still down, yet the handler sets the Grabbed Flag and seizes
    the keyboard. *)
Theorem grab_timer_grabs_while_key_is_down :
  grabbed_ key_held_warned = false
  ∧ get_all_devices_pressed_keys_count key_held_warned = 1
  ∧ timer_sources key_held_warned !! 1%N = Some 100
  ∧ grabbed_ (grab_timer_fire 1%N 100 true key_held_warned) = true
  ∧ new_calls key_held_warned (grab_timer_fire 1%N 100 true key_held_warned)
    = [hid_unobserve 7%N; hid_grab 7%N; hid_set_caps_lock_led_state 7%N krbn.on;
       hid_clear_changed_keys 7%N; hid_clear_pressed_keys 7%N;
       hid_system_set_caps_lock_state false; logger_info "devices are grabbed";
       dispatch_source_cancel 1%N].
Proof. split_and!; vm_compute; reflexivity. Qed.

(** ** Hot-plug of a self-originated device *)

(** While the Grabbed Flag is false a matched device is handed to
    [observe] whatever its manufacturer. *)
Lemma device_matching_callback_observes (device : N) (p : device_properties)
    (s : device_grabber) :
  device ≠ 0%N → grabbed_ s = false →
  let s' := device_matching_callback device p s in
  last (trace s') = Some (hid_observe device)
  ∧ hids_ s' !! device = Some (hid_op_observe (new_human_interface_device p)).
Proof.
  intros Hnz Hg s'. subst s'. unfold device_matching_callback, observe.
  apply N.eqb_neq in Hnz. rewrite Hnz.
  destruct (hids_ s !! device); read_fields; rewrite Hg; read_fields.
  all: split; [by rewrite last_snoc |].
  all: by rewrite lookup_alter_eq, lookup_insert_eq.
Qed.

(** C2 (the code departs from it): the virtual keyboard, whose
    manufacturer is "pqrs.org", is matched while the Grabbed Flag is false;
    the callback registers it and passes it to observe. *)
Theorem hot_plug_observes_self_originated_device :
  let s := device_grabber_new caps_on in
  let s' := static_device_matching_callback true 9%N virtual_keyboard s in
  grabbed_ s = false
  ∧ self_originated (new_human_interface_device virtual_keyboard) = true
  ∧ trace s' = [logger_info_matching "pqrs.org" "VirtualHIDKeyboard" 0 0 0 "" 4294968321;
                hid_observe 9%N]
  ∧ capability_state <$> hids_ s' !! 9%N = Some observed.
Proof. split_and!; vm_compute; reflexivity. Qed.

(** * Further properties *)

(** ** Simple modifications *)

(** X1: the simple-modification table keeps the last destination written
    for a source key, leaves the other source keys alone, and is empty after
    [clear_simple_modifications]; neither method touches a device, the
    Grabbed Flag, the timer or makes a call. *)
Theorem simple_modifications_last_write_wins (from to to' other : krbn.key_code)
    (s : device_grabber) :
  let s1 := add_simple_modification from to' (add_simple_modification from to s) in
  simple_modifications_ s1 !! from = Some to'
  ∧ simple_modifications_ s1 = simple_modifications_ (add_simple_modification from to' s)
  ∧ (other ≠ from → simple_modifications_ s1 !! other = simple_modifications_ s !! other)
  ∧ simple_modifications_ (clear_simple_modifications s1) !! from = None
  ∧ simple_modifications_ (clear_simple_modifications s1) !! other = None
  ∧ s1 = set_simple_modifications (simple_modifications_ s1) s
  ∧ clear_simple_modifications s1 = set_simple_modifications ∅ s.
Proof.
  intros s1. subst s1. unfold add_simple_modification, clear_simple_modifications.
  read_fields. split_and!.
  - apply lookup_insert_eq.
  - apply insert_insert_eq.
  - intros Hne. by rewrite !lookup_insert_ne.
  - apply lookup_empty.
  - apply lookup_empty.
  - by state_eq.
  - by state_eq.
Qed.

Lemma simple_modifications_last_write_wins_witness :
  simple_modifications_
    (add_simple_modification 0x39 0x29 (add_simple_modification 0x39 0x2a two_devices))
  !! 0x3a = simple_modifications_ two_devices !! 0x3a.
Proof.
  pose proof (simple_modifications_last_write_wins 0x39 0x2a 0x29 0x3a two_devices)
    as (_ & _ & H & _).
  apply H. discriminate.
Defined.

(** ** The LED broadcast *)

Lemma length_flat_map_singleton {A B} (g : A → B) (l : list A) :
  length (flat_map (λ x, [g x]) l) = length l.
Proof. induction l as [|x l IH]; [done |]. simpl. by rewrite IH. Qed.

(** X2: [set_caps_lock_led_state] sets the LED of every registered handle,
    self-originated ones included, with one call per handle; the registry
    keeps its keys and every handle its metadata, buffers and capability
    state; nothing else changes. *)
Theorem set_caps_lock_led_state_broadcast (st : krbn.led_state) (s : device_grabber) :
  let s' := set_caps_lock_led_state st s in
  dom (hids_ s') = dom (hids_ s)
  ∧ new_calls s s'
    = flat_map (λ it, [hid_set_caps_lock_led_state it.1 st]) (map_to_list (hids_ s))
  ∧ length (new_calls s s') = size (hids_ s)
  ∧ s' = set_trace (trace s') (set_hids (hids_ s') s)
  ∧ ∀ d hid, hids_ s !! d = Some hid →
      hid_set_caps_lock_led_state d st ∈ new_calls s s'
      ∧ hids_ s' !! d = Some (hid_op_set_caps_lock_led_state st hid)
      ∧ ∃ hid', hids_ s' !! d = Some hid'
                ∧ caps_lock_led hid' = Some st
                ∧ properties hid' = properties hid
                ∧ capability_state hid' = capability_state hid
                ∧ changed_keys hid' = changed_keys hid
                ∧ pressed_keys hid' = pressed_keys hid.
Proof.
  intros s'. subst s'.
  assert (new_calls s (set_caps_lock_led_state st s)
          = flat_map (λ it, [hid_set_caps_lock_led_state it.1 st])
              (map_to_list (hids_ s))) as Hnew
    by (apply new_calls_app; by rewrite set_caps_lock_led_state_closed).
  rewrite Hnew. rewrite set_caps_lock_led_state_closed. read_fields.
  split_and!.
  - apply dom_fmap_L.
  - done.
  - rewrite <- length_map_to_list. apply length_flat_map_singleton.
  - by state_eq.
  - intros d hid Hd. split_and!.
    + apply list_elem_of_In, in_flat_map. exists (d, hid). split.
      * apply list_elem_of_In. by apply elem_of_map_to_list.
      * by left.
    + by apply lookup_fmap_hid.
    + eexists. split; [by apply lookup_fmap_hid |]. done.
Qed.

Lemma set_caps_lock_led_state_broadcast_witness :
  hid_set_caps_lock_led_state 9%N krbn.off
  ∈ new_calls two_devices (set_caps_lock_led_state krbn.off two_devices).
Proof.
  pose proof (set_caps_lock_led_state_broadcast krbn.off two_devices) as H.
  cbv zeta in H. destruct H as (_ & _ & _ & _ & H).
  apply (H 9%N (hid_op_observe (new_human_interface_device virtual_keyboard))).
  vm_compute; reflexivity.
Defined.

(** ** The pressed-key count *)

Lemma size_max_pos : 0 < size_max.
Proof. reflexivity. Qed.

Lemma pressed_keys_count_foldl (l : list (N * human_interface_device)) (a : Z) :
  foldl (λ total it, (total + get_pressed_keys_count it.2) mod size_max) (a mod size_max) l
  = (a + foldr (λ it acc, Z.of_nat (length (pressed_keys it.2)) + acc) 0 l) mod size_max.
Proof.
  revert a. induction l as [|it l IH]; intros a; cbn [foldl foldr].
  - by rewrite Z.add_0_r.
  - unfold get_pressed_keys_count at 2.
    rewrite <- Zplus_mod, IH. f_equal. lia.
Qed.

Lemma pressed_keys_count_total (s : device_grabber) :
  get_all_devices_pressed_keys_count s = pressed_keys_total (hids_ s) mod size_max.
Proof.
  unfold get_all_devices_pressed_keys_count, pressed_keys_total.
  change 0 with (0 mod size_max) at 1. by rewrite pressed_keys_count_foldl.
Qed.

Lemma pressed_keys_total_nonneg (l : list (N * human_interface_device)) :
  0 ≤ foldr (λ it acc, Z.of_nat (length (pressed_keys it.2)) + acc) 0 l.
Proof. induction l as [|it l IH]; cbn [foldr]; lia. Qed.

Lemma pressed_keys_total_zero (l : list (N * human_interface_device)) :
  foldr (λ it acc, Z.of_nat (length (pressed_keys it.2)) + acc) 0 l = 0
  ↔ ∀ it, it ∈ l → pressed_keys it.2 = [].
Proof.
  induction l as [|it l IH]; cbn [foldr].
  - split; [| done]. intros _ it Hin. by apply elem_of_nil in Hin.
  - pose proof (pressed_keys_total_nonneg l). split.
    + intros Hsum it' [->|Hin]%elem_of_cons.
      * apply length_zero_iff_nil. lia.
      * apply IH; [lia | done].
    + intros Hall.
      rewrite (Hall it) by (apply elem_of_cons; by left). cbn [length].
      apply proj2 in IH. rewrite IH; [done |].
      intros it' Hin. apply Hall, elem_of_cons. by right.
Qed.

Lemma pressed_keys_count_zero_of_empty_buffers (s : device_grabber) :
  (∀ d hid, hids_ s !! d = Some hid → pressed_keys hid = []) →
  get_all_devices_pressed_keys_count s = 0.
Proof.
  intros Hall. rewrite pressed_keys_count_total. unfold pressed_keys_total.
  assert (foldr (λ it acc, Z.of_nat (length (pressed_keys it.2)) + acc) 0
            (map_to_list (hids_ s)) = 0) as ->; [| done].
  apply (proj2 (pressed_keys_total_zero _)). intros [d hid] Hin.
  apply elem_of_map_to_list in Hin. by apply (Hall d).
Qed.

(** X3: [get_all_devices_pressed_keys_count] is the number of keys held
    down on all registered devices, reduced modulo 2^64 by the [size_t]
    accumulator.  It is 0 for an empty registry and whenever no device has a
    pressed key; and when the true total is below 2^64, a count of 0 means
    that no registered device, self-originated or not, has a pressed key. *)
Theorem pressed_keys_count_spec (s : device_grabber) :
  get_all_devices_pressed_keys_count s = pressed_keys_total (hids_ s) mod size_max
  ∧ 0 ≤ get_all_devices_pressed_keys_count s < size_max
  ∧ (hids_ s = ∅ → get_all_devices_pressed_keys_count s = 0)
  ∧ ((∀ d hid, hids_ s !! d = Some hid → pressed_keys hid = []) →
     get_all_devices_pressed_keys_count s = 0)
  ∧ (pressed_keys_total (hids_ s) < size_max →
     get_all_devices_pressed_keys_count s = 0 →
     ∀ d hid, hids_ s !! d = Some hid → pressed_keys hid = []).
Proof.
  split_and!.
  - apply pressed_keys_count_total.
  - rewrite pressed_keys_count_total. apply Z.mod_pos_bound, size_max_pos.
  - rewrite pressed_keys_count_total. apply Z.mod_pos_bound, size_max_pos.
  - intros Hempty. apply pressed_keys_count_zero_of_empty_buffers.
    intros d hid. by rewrite Hempty, lookup_empty.
  - apply pressed_keys_count_zero_of_empty_buffers.
  - intros Hlt Hzero d hid Hd.
    rewrite pressed_keys_count_total in Hzero.
    rewrite Z.mod_small in Hzero
      by (split; [apply pressed_keys_total_nonneg | done]).
    eapply (proj1 (pressed_keys_total_zero _) Hzero (d, hid)).
    by apply elem_of_map_to_list.
Qed.

Lemma pressed_keys_count_spec_witness :
  get_all_devices_pressed_keys_count two_devices = 0
  ∧ pressed_keys (hid_op_observe (new_human_interface_device apple_keyboard)) = [].
Proof.
  pose proof (pressed_keys_count_spec two_devices) as (_ & _ & _ & _ & H).
  split; [vm_compute; reflexivity |].
  apply (H ltac:(vm_compute; reflexivity) ltac:(vm_compute; reflexivity) 7%N).
  vm_compute; reflexivity.
Defined.

(** X4: after the grab completion, and after [ungrab_devices] with the
    Grabbed Flag set, the pressed-key count over all devices is 0: both loops
    have emptied every pressed-keys buffer, so the key gate of the next grab
    attempt starts open. *)
Theorem pressed_keys_count_zero_after_transition (s : device_grabber) :
  get_all_devices_pressed_keys_count (grab_completion s) = 0
  ∧ (grabbed_ s = true → get_all_devices_pressed_keys_count (ungrab_devices s) = 0)
  ∧ (∀ timer last now,
       grabbed_ s = false → get_all_devices_pressed_keys_count s = 0 →
       get_all_devices_pressed_keys_count
         (ungrab_devices (grab_timer_event_handler timer last now true s)) = 0).
Proof.
  assert (∀ s, get_all_devices_pressed_keys_count (grab_completion s) = 0) as Hgrab.
  { intros s0. apply pressed_keys_count_zero_of_empty_buffers. intros d hid.
    rewrite grab_completion_closed. read_fields.
    rewrite lookup_fmap. destruct (hids_ s0 !! d); [| done]. by intros [= <-]. }
  assert (∀ s, grabbed_ s = true →
               get_all_devices_pressed_keys_count (ungrab_devices s) = 0) as Hungrab.
  { intros s0 Hg. apply pressed_keys_count_zero_of_empty_buffers. intros d hid.
    rewrite ungrab_devices_closed by done. read_fields.
    rewrite lookup_fmap. destruct (hids_ s0 !! d); [| done]. by intros [= <-]. }
  split_and!; [apply Hgrab | apply Hungrab |].
  intros timer last now Hg Hc. rewrite grab_timer_event_handler_pass by done.
  apply Hungrab. by rewrite grab_completion_closed.
Qed.

Lemma pressed_keys_count_zero_after_transition_witness :
  get_all_devices_pressed_keys_count (ungrab_devices two_devices_grabbed) = 0.
Proof.
  pose proof (pressed_keys_count_zero_after_transition two_devices_grabbed)
    as (_ & H & _).
  apply H. vm_compute; reflexivity.
Defined.

(** ** Warnings of the timer handler *)

Lemma Forall_flat_map_intro {A B} (P : B → Prop) (f : A → list B) (l : list A) :
  (∀ x, x ∈ l → Forall P (f x)) → Forall P (flat_map f l).
Proof.
  induction l as [|x l IH]; intros Hall; cbn [flat_map]; [done |].
  apply Forall_app. split.
  - apply Hall, elem_of_cons. by left.
  - apply IH. intros y Hy. apply Hall, elem_of_cons. by right.
Qed.

Lemma grab_completion_never_warns (s : device_grabber) :
  Forall (λ c, is_logger_warn c = false) (new_calls s (grab_completion s)).
Proof.
  rewrite (new_calls_app s (grab_completion s) _
             ltac:(rewrite grab_completion_closed; reflexivity)).
  apply Forall_app. split; [| apply Forall_app; split].
  - apply Forall_flat_map_intro. intros [d hid] _. cbn [fst snd].
    unfold grab_calls, clear_calls. destruct (self_originated hid);
      repeat (apply Forall_cons; split; [done |]); done.
  - repeat (apply Forall_cons; split; [done |]); done.
  - destruct (grab_timer_ s); cbn [cancel_calls];
      repeat (apply Forall_cons; split; [done |]); done.
Qed.

(** X5: one run of the timer handler logs a warning exactly when the
    Grabbed Flag is false, a precondition is unmet and the clock shows
    another second than the one of the last warning.  It is then the only
    call of the run, the second is recorded for the timer, and the message
    names the pressed keys whenever a key is down, also when the engine is
    not ready as well.  In every other case the run logs no warning. *)
Theorem grab_timer_warning_rate_limit timer last now is_ready (s : device_grabber) :
  let s' := grab_timer_event_handler timer last now is_ready s in
  let unmet := negb is_ready || (0 <? get_all_devices_pressed_keys_count s) in
  let message := if 0 <? get_all_devices_pressed_keys_count s
                 then msg_pressed_keys else msg_not_ready in
  (grabbed_ s = false → unmet = true → last ≠ now →
   new_calls s s' = [logger_warn message]
   ∧ timer_sources s' !! timer = Some now
   ∧ s' = set_trace (trace s') (set_timer_sources (timer_sources s') s))
  ∧ (grabbed_ s = true ∨ unmet = false ∨ last = now →
     Forall (λ c, is_logger_warn c = false) (new_calls s s')).
Proof.
  intros s' unmet message. subst s' unmet message.
  unfold grab_timer_event_handler. split.
  - intros Hg Hunmet Hne. rewrite Hg.
    apply Z.eqb_neq in Hne. rewrite Hne. cbn [negb].
    destruct (0 <? get_all_devices_pressed_keys_count s) eqn:Hc.
    + split_and!; [by apply new_calls_app | apply lookup_insert_eq | by state_eq].
    + rewrite orb_false_r in Hunmet. rewrite Hunmet.
      split_and!; [by apply new_calls_app | apply lookup_insert_eq | by state_eq].
  - intros Hcase. destruct (grabbed_ s) eqn:Hg.
    { unfold new_calls. by rewrite drop_all. }
    destruct Hcase as [? | [Hmet | ->]]; [done | |].
    + apply orb_false_iff in Hmet as [Hr Hc]. rewrite Hr, Hc.
      apply grab_completion_never_warns.
    + rewrite Z.eqb_refl. cbn [negb].
      repeat case_match; apply grab_completion_never_warns.
Qed.

Lemma grab_timer_warning_rate_limit_witness :
  new_calls two_devices_armed
    (grab_timer_event_handler 1%N 99 100 false two_devices_armed)
  = [logger_warn msg_not_ready].
Proof.
  pose proof (grab_timer_warning_rate_limit 1%N 99 100 false two_devices_armed) as H.
  cbv zeta in H. destruct H as [H _].
  destruct (H ltac:(vm_compute; reflexivity) ltac:(vm_compute; reflexivity)
              ltac:(discriminate)) as (Hw & _).
  rewrite Hw. vm_compute; reflexivity.
Defined.

(** ** Ticks that do nothing *)

Lemma grab_timer_fire_grabbed timer now is_ready (s : device_grabber) :
  grabbed_ s = true → grab_timer_fire timer now is_ready s = s.
Proof.
  intros Hg. unfold grab_timer_fire, grab_timer_event_handler.
  rewrite Hg. by case_match.
Qed.

(** X6: while the Grabbed Flag is set no number of timer ticks changes
    anything.  A [grab_devices] called in that state therefore arms a timer
    that no tick ever cancels: it stays alive, with the flag still set, until
    [ungrab_devices] cancels it. *)
Theorem grab_timer_idles_while_grabbed tbl (es : list event) now (s : device_grabber) :
  grabbed_ s = true →
  Forall (λ e, is_grab_timer_event e = true) es →
  run tbl es s = s
  ∧ (let s1 := grab_devices now s in
     run tbl es s1 = s1
     ∧ grabbed_ s1 = true
     ∧ grab_timer_ s1 = Some (next_timer_source s)
     ∧ timer_sources s1 !! next_timer_source s = Some (now - 1)
     ∧ grab_timer_ (ungrab_devices s1) = None
     ∧ timer_sources (ungrab_devices s1) !! next_timer_source s = None).
Proof.
  intros Hg Hes.
  assert (∀ s0, grabbed_ s0 = true → run tbl es s0 = s0) as Hrun.
  { unfold run. induction Hes as [|e es He _ IH]; intros s0 Hs0; [done |].
    cbn [foldl]. destruct e; try discriminate. cbn [step].
    rewrite grab_timer_fire_grabbed by done. by apply IH. }
  split; [by apply Hrun |].
  intros s1. subst s1.
  assert (grabbed_ (grab_devices now s) = true) as Hg1
    by (by rewrite grab_devices_closed).
  split_and!.
  - by apply Hrun.
  - done.
  - by rewrite grab_devices_closed.
  - rewrite grab_devices_closed. read_fields. apply lookup_insert_eq.
  - by rewrite ungrab_devices_closed.
  - rewrite ungrab_devices_closed by done. read_fields.
    rewrite grab_devices_closed. read_fields. apply lookup_delete_eq.
Qed.

Lemma grab_timer_idles_while_grabbed_witness :
  run macos_usage_tables [ev_grab_timer 2%N 101 true; ev_grab_timer 2%N 102 false]
    (grab_devices 101 two_devices_grabbed)
  = grab_devices 101 two_devices_grabbed.
Proof.
  pose proof (grab_timer_idles_while_grabbed macos_usage_tables
                [ev_grab_timer 2%N 101 true; ev_grab_timer 2%N 102 false] 101
                two_devices_grabbed ltac:(vm_compute; reflexivity)
                ltac:(repeat constructor)) as [_ H].
  apply H.
Defined.

(** X7: [ungrab_devices] called between [grab_devices] and the grab
    completion does not withdraw the request: the Grabbed Flag is still
    false, so the call returns at once, the timer stays armed, and the next
    tick that finds the engine ready and no key pressed grabs. *)
Theorem ungrab_devices_keeps_pending_grab now now' (s : device_grabber) :
  grabbed_ s = false →
  let s1 := ungrab_devices (grab_devices now s) in
  s1 = grab_devices now s
  ∧ grab_timer_ s1 = Some (next_timer_source s)
  ∧ timer_sources s1 !! next_timer_source s = Some (now - 1)
  ∧ (get_all_devices_pressed_keys_count s = 0 →
     grab_timer_fire (next_timer_source s) now' true s1 = grab_completion s1
     ∧ grabbed_ (grab_timer_fire (next_timer_source s) now' true s1) = true).
Proof.
  intros Hg s1. subst s1.
  assert (grabbed_ (grab_devices now s) = false) as Hg1
    by (by rewrite grab_devices_closed).
  assert (ungrab_devices (grab_devices now s) = grab_devices now s) as ->
    by (unfold ungrab_devices; by rewrite Hg1).
  assert (timer_sources (grab_devices now s) !! next_timer_source s = Some (now - 1))
    as Hsrc by (rewrite grab_devices_closed; read_fields; apply lookup_insert_eq).
  split_and!; try done.
  - by rewrite grab_devices_closed.
  - intros Hc.
    assert (grab_timer_fire (next_timer_source s) now' true (grab_devices now s)
            = grab_completion (grab_devices now s)) as ->.
    { unfold grab_timer_fire. rewrite Hsrc.
      apply grab_timer_event_handler_pass; [done |].
      unfold get_all_devices_pressed_keys_count in *.
      by rewrite grab_devices_closed. }
    split; [done |]. by rewrite grab_completion_closed.
Qed.

Lemma ungrab_devices_keeps_pending_grab_witness :
  ungrab_devices (grab_devices 100 two_devices) = grab_devices 100 two_devices
  ∧ grabbed_ (grab_timer_fire 1%N 100 true (ungrab_devices (grab_devices 100 two_devices)))
    = true.
Proof.
  pose proof (ungrab_devices_keeps_pending_grab 100 100 two_devices
                ltac:(vm_compute; reflexivity)) as H.
  cbv zeta in H. destruct H as (H1 & _ & _ & H2).
  split; [exact H1 |].
  apply (H2 ltac:(vm_compute; reflexivity)).
Defined.

Lemma device_grabber_destroy_closed (s : device_grabber) :
  device_grabber_destroy s
  = set_hids ∅
      (set_grab_timer None
         (set_trace
            (trace s ++ cancel_calls (grab_timer_ s)
             ++ flat_map (λ it, [hid_destroy it.1]) (map_to_list (hids_ s)))
            (set_timer_sources
               match grab_timer_ s with
               | Some t => delete t (timer_sources s)
               | None => timer_sources s
               end s))).
Proof.
  unfold device_grabber_destroy. rewrite cancel_grab_timer_closed.
  state_eq; try done. by rewrite <- app_assoc.
Qed.

(** X8: in every reachable state only the timer that [grab_timer_] holds
    can run the handler: a tick of any other source, in particular of a
    cancelled one, changes nothing; with no timer held no tick does.  The
    destructor cancels the timer and then destroys every handle the registry
    owns: afterwards no timer source is left, no tick has any effect and the
    registry is empty. *)
Theorem cancelled_timer_never_fires tbl (s : device_grabber) timer now is_ready :
  reachable tbl s →
  (grab_timer_ s ≠ Some timer → grab_timer_fire timer now is_ready s = s)
  ∧ (let s' := device_grabber_destroy s in
     grab_timer_ s' = None
     ∧ timer_sources s' = ∅
     ∧ grab_timer_fire timer now is_ready s' = s'
     ∧ hids_ s' = ∅
     ∧ new_calls s s'
       = cancel_calls (grab_timer_ s)
         ++ flat_map (λ it, [hid_destroy it.1]) (map_to_list (hids_ s))
     ∧ ∀ d hid, hids_ s !! d = Some hid → hid_destroy d ∈ new_calls s s').
Proof.
  intros Hr. pose proof (timer_inv_reachable _ _ Hr) as [Hd Hlt]. split.
  - intros Hne. unfold grab_timer_fire.
    assert (timer_sources s !! timer = None) as ->; [| done].
    apply not_elem_of_dom. rewrite Hd.
    destruct (grab_timer_ s) as [t|]; cbn [alive_timers]; [| set_solver].
    apply not_elem_of_singleton. congruence.
  - intros s'. subst s'.
    assert (timer_sources (device_grabber_destroy s) = ∅) as Hempty.
    { rewrite device_grabber_destroy_closed. read_fields. apply dom_empty_iff_L.
      destruct (grab_timer_ s) as [t|]; cbn [alive_timers] in Hd.
      - rewrite dom_delete_L, Hd. set_solver.
      - done. }
    assert (new_calls s (device_grabber_destroy s)
            = cancel_calls (grab_timer_ s)
              ++ flat_map (λ it, [hid_destroy it.1]) (map_to_list (hids_ s))) as Hnew
      by (apply new_calls_app; by rewrite device_grabber_destroy_closed).
    split_and!.
    + by rewrite device_grabber_destroy_closed.
    + done.
    + unfold grab_timer_fire. by rewrite Hempty, lookup_empty.
    + by rewrite device_grabber_destroy_closed.
    + done.
    + intros d hid Hdev. rewrite Hnew. apply elem_of_app. right.
      apply list_elem_of_In, in_flat_map. exists (d, hid). split.
      * apply list_elem_of_In. by apply elem_of_map_to_list.
      * by left.
Qed.

Lemma cancelled_timer_never_fires_witness :
  grab_timer_fire 1%N 101 true two_devices_grabbed = two_devices_grabbed
  ∧ hid_destroy 7%N ∈ new_calls two_devices_armed (device_grabber_destroy two_devices_armed).
Proof.
  assert (reachable macos_usage_tables two_devices_grabbed) as Hr
    by (repeat apply reachable_step; apply reachable_new).
  assert (reachable macos_usage_tables two_devices_armed) as Hr'
    by (repeat apply reachable_step; apply reachable_new).
  pose proof (cancelled_timer_never_fires macos_usage_tables two_devices_grabbed
                1%N 101 true Hr) as [H _].
  pose proof (cancelled_timer_never_fires macos_usage_tables two_devices_armed
                1%N 101 true Hr') as [_ H'].
  split.
  - apply H. vm_compute. discriminate.
  - cbv zeta in H'. destruct H' as (_ & _ & _ & _ & _ & H').
    apply (H' 7%N (hid_op_observe (new_human_interface_device apple_keyboard))).
    vm_compute; reflexivity.
Defined.

(** ** Hot-plug *)

Lemma touch_insert d cs op h (m : gmap N human_interface_device) (s : device_grabber) :
  hids_ s = <[d := h]> m →
  touch d cs op s = set_trace (trace s ++ cs) (set_hids (<[d := op h]> m) s).
Proof.
  intros Hm. state_eq; try done. rewrite Hm. apply alter_insert_eq.
Qed.

Lemma device_matching_callback_closed (device : N) (p : device_properties)
    (s : device_grabber) :
  device ≠ 0%N →
  device_matching_callback device p s
  = set_trace
      (trace s ++ replaced_calls device (hids_ s !! device) ++ [matching_log p]
       ++ attach_calls (grabbed_ s) (hid_system_client_ s) device
            (new_human_interface_device p))
      (set_hids
         (<[device := attach_effect (grabbed_ s) (hid_system_client_ s)
                        (new_human_interface_device p)]> (hids_ s)) s).
Proof.
  intros Hnz. unfold device_matching_callback.
  apply N.eqb_neq in Hnz. rewrite Hnz.
  set (s0 := match hids_ s !! device with
             | Some _ => emit (hid_destroy device) s
             | None => s
             end).
  assert (s0 = set_trace (trace s ++ replaced_calls device (hids_ s !! device)) s)
    as Hs0.
  { subst s0. destruct (hids_ s !! device); cbn [replaced_calls]; state_eq; try done.
    by rewrite app_nil_r. }
  rewrite Hs0. clear s0 Hs0. read_fields.
  set (cs := trace s ++ replaced_calls device (hids_ s !! device)).
  set (s1 := emit _ _).
  assert (hids_ s1 = <[device := new_human_interface_device p]> (hids_ s)) as Hm by done.
  assert (hid_system_client_ s1 = hid_system_client_ s) as Hc by done.
  assert (trace s1 = cs ++ [matching_log p]) as Htr by done.
  assert (set_trace (trace s) (set_hids (hids_ s) s1) = s) as Hs1
    by (subst s1; by state_eq).
  unfold attach_calls, attach_effect, grab_calls, grab_effect, self_originated.
  destruct (grabbed_ s) eqn:Hg.
  - unfold grab, unobserve. rewrite Hm, lookup_insert_eq.
    destruct (is_pqrs_manufacturer (get_manufacturer (new_human_interface_device p)))
      eqn:P.
    + subst s1 cs. state_eq; try done. by rewrite app_nil_r, <- !app_assoc.
    + rewrite ?on_hid_touch, ?touch_touch, ?touch_hid_system_client, Hc.
      unfold led_for.
      destruct (get_caps_lock_state (hid_system_client_ s)) as [[]|];
        rewrite ?on_hid_touch, ?touch_touch;
        rewrite (touch_insert _ _ _ _ _ _ Hm);
        subst s1 cs; state_eq; try done; by rewrite <- !app_assoc.
  - unfold observe. rewrite on_hid_touch, (touch_insert _ _ _ _ _ _ Hm).
    subst s1 cs. state_eq; try done. by rewrite <- !app_assoc.
Qed.




(** X10: removing a device right after it was matched gives back the
    registry as it was before the match when the reference was new, and the
    registry without the reference when it was taken; the removal destroys
    the handle without releasing a seize or stopping observation first, and
    Grabbed Flag, timer and the other fields are as before the match. *)
Theorem device_matching_then_removal (device : N) (p : device_properties)
    (s : device_grabber) :
  device ≠ 0%N →
  let s1 := device_matching_callback device p s in
  let s2 := device_removal_callback device s1 in
  hids_ s2 = delete device (hids_ s)
  ∧ (hids_ s !! device = None → hids_ s2 = hids_ s)
  ∧ new_calls s1 s2
    = [logger_info_removal (default 0 (prop_vendor_id p)) (default 0 (prop_product_id p))
         (default 0 (prop_location_id p));
       hid_destroy device]
  ∧ s2 = set_trace (trace s2) (set_hids (hids_ s2) s).
Proof.
  intros Hnz s1 s2. subst s1 s2.
  rewrite device_matching_callback_closed by done.
  unfold device_removal_callback.
  rewrite (proj2 (N.eqb_neq _ _) Hnz). read_fields. rewrite lookup_insert_eq.
  assert (∀ h : human_interface_device,
            delete device (<[device := h]> (hids_ s)) = delete device (hids_ s))
    as Hdel by (intros; apply delete_insert_eq).
  read_fields. rewrite Hdel.
  assert (∀ flag c, properties (attach_effect flag c (new_human_interface_device p)) = p)
    as Hp.
  { intros flag c. unfold attach_effect, grab_effect.
    destruct flag; [destruct (self_originated _) |]; done. }
  unfold get_vendor_id, get_product_id, get_location_id. rewrite Hp.
  split_and!.
  - done.
  - intros Hnone. by apply delete_id.
  - unfold new_calls. read_fields.
    rewrite <- app_assoc. by rewrite drop_app_length.
  - by state_eq.
Qed.

Lemma device_matching_then_removal_witness :
  hids_ (device_removal_callback 11%N
           (device_matching_callback 11%N apple_keyboard two_devices_grabbed))
  = hids_ two_devices_grabbed.
Proof.
  pose proof (device_matching_then_removal 11%N apple_keyboard two_devices_grabbed
                ltac:(discriminate)) as H.
  cbv zeta in H. destruct H as (_ & H & _).
  apply H. vm_compute; reflexivity.
Defined.

(** ** What a step leaves alone *)

Lemma grab_timer_event_handler_cases timer last now is_ready (s : device_grabber) :
  let s' := grab_timer_event_handler timer last now is_ready s in
  s' = s
  ∨ (grabbed_ s = false ∧ hids_ s' = hids_ s ∧ grabbed_ s' = false)
  ∨ (grabbed_ s = false ∧ s' = grab_completion s).
Proof.
  intros s'. subst s'. unfold grab_timer_event_handler.
  destruct (grabbed_ s) eqn:Hg; [by left |].
  repeat case_match; try (right; right; done); right; left; done.
Qed.

Lemma device_removal_callback_hids (device : N) (s : device_grabber) :
  let s' := device_removal_callback device s in
  (s' = s ∨ hids_ s' = delete device (hids_ s)) ∧ grabbed_ s' = grabbed_ s.
Proof.
  intros s'. subst s'. unfold device_removal_callback.
  repeat case_match; split; auto.
Qed.

Lemma value_callback_frame tbl hid usage_page usage integer_value (s : device_grabber) :
  let s' := value_callback tbl hid usage_page usage integer_value s in
  hids_ s' = hids_ s ∧ grabbed_ s' = grabbed_ s.
Proof. intros s'. subst s'. unfold value_callback. by repeat case_match. Qed.

Lemma step_dom tbl (e : event) (s : device_grabber) :
  is_hot_plug e = false → dom (hids_ (step tbl e s)) = dom (hids_ s).
Proof.
  intros He. destruct e as [now|timer now is_ready| | |st| |f t|ok device p|ok device
                           |device usage_page usage integer_value|device changed pressed
                           |readable hardware];
    try discriminate; cbn [step].
  - by rewrite grab_devices_closed.
  - unfold grab_timer_fire. destruct (timer_sources s !! timer) as [last|]; [| done].
    destruct (grab_timer_event_handler_cases timer last now is_ready s)
      as [-> | [(_ & -> & _) | (_ & ->)]]; try done.
    rewrite grab_completion_closed. apply dom_fmap_L.
  - destruct (grabbed_ s) eqn:Hg.
    + rewrite ungrab_devices_closed by done. apply dom_fmap_L.
    + unfold ungrab_devices. by rewrite Hg.
  - done.
  - rewrite set_caps_lock_led_state_closed. apply dom_fmap_L.
  - done.
  - done.
  - destruct (hids_ s !! device) as [h|]; [| done].
    by destruct (value_callback_frame tbl h usage_page usage integer_value s) as [-> _].
  - read_fields. apply dom_alter_L.
  - done.
Qed.

(** X11: the key set of the Device Registry changes only in the two
    hot-plug callbacks: no other block adds or drops an entry.  The null
    device reference is never a key of a reachable registry. *)
Theorem registry_keys_change_only_on_hot_plug tbl (s : device_grabber) :
  (∀ e, is_hot_plug e = false → dom (hids_ (step tbl e s)) = dom (hids_ s))
  ∧ (∀ ok device p,
       dom (hids_ (step tbl (ev_device_matching ok device p) s)) ⊆ {[device]} ∪ dom (hids_ s))
  ∧ (∀ ok device,
       dom (hids_ (step tbl (ev_device_removal ok device) s)) ⊆ dom (hids_ s))
  ∧ (reachable tbl s → hids_ s !! 0%N = None).
Proof.
  assert (∀ s ok device p,
            dom (hids_ (step tbl (ev_device_matching ok device p) s))
            = if ok && negb (device =? 0)%N then {[device]} ∪ dom (hids_ s)
              else dom (hids_ s)) as Hmatch.
  { intros s0 ok device p. cbn [step]. unfold static_device_matching_callback.
    destruct ok; cbn [negb andb]; [| done].
    destruct (N.eqb_spec device 0) as [->|Hnz]; cbn [negb]; [done |].
    rewrite device_matching_callback_closed by done. read_fields.
    apply dom_insert_L. }
  assert (∀ s ok device,
            dom (hids_ (step tbl (ev_device_removal ok device) s)) ⊆ dom (hids_ s))
    as Hremove.
  { intros s0 ok device. cbn [step]. unfold static_device_removal_callback.
    destruct ok; cbn [negb]; [| done].
    destruct (device_removal_callback_hids device s0) as [[-> | ->] _]; [done |].
    rewrite dom_delete_L. set_solver. }
  split_and!.
  - intros e He. by apply step_dom.
  - intros ok device p. rewrite Hmatch. case_match; set_solver.
  - apply Hremove.
  - induction 1 as [c|e s0 _ IH]; [done |].
    apply not_elem_of_dom. apply not_elem_of_dom in IH.
    destruct (is_hot_plug e) eqn:He.
    + destruct e as [now|timer now is_ready| | |st| |f t|ok device p|ok device
                    |device usage_page usage integer_value|device changed pressed
                    |readable hardware];
        try discriminate.
      * rewrite Hmatch. destruct ok; cbn [andb]; [| done].
        destruct (N.eqb_spec device 0) as [->|Hnz]; cbn [negb]; [done |].
        set_solver.
      * intros Hin. by apply IH, (Hremove s0 ok device).
    + by rewrite step_dom.
Qed.

Lemma registry_keys_change_only_on_hot_plug_witness :
  dom (hids_ (step macos_usage_tables ev_ungrab_devices two_devices_grabbed))
  = dom (hids_ two_devices_grabbed)
  ∧ hids_ two_devices_grabbed !! 0%N = None.
Proof.
  pose proof (registry_keys_change_only_on_hot_plug macos_usage_tables
                two_devices_grabbed) as (H1 & _ & _ & H4).
  split.
  - apply H1. reflexivity.
  - apply H4. repeat apply reachable_step. apply reachable_new.
Defined.

(** X12: the Grabbed Flag is assigned only by the grab timer's handler and
    by [ungrab_devices]: every other block leaves it as it is.  A step that
    sets it is a timer tick, and a step that clears it is [ungrab_devices]. *)
Theorem grabbed_flag_assigned_only_by_tick_and_ungrab tbl (e : event)
    (s : device_grabber) :
  (assigns_grabbed e = false → grabbed_ (step tbl e s) = grabbed_ s)
  ∧ (grabbed_ s = false → grabbed_ (step tbl e s) = true → is_grab_timer_event e = true)
  ∧ (grabbed_ s = true → grabbed_ (step tbl e s) = false → e = ev_ungrab_devices).
Proof.
  assert (assigns_grabbed e = false → grabbed_ (step tbl e s) = grabbed_ s) as Hframe.
  { intros He. destruct e as [now|timer now is_ready| | |st| |f t|ok device p|ok device
                             |device usage_page usage integer_value|device changed pressed
                             |readable hardware];
    try discriminate; cbn [step].
    - by rewrite grab_devices_closed.
    - done.
    - by rewrite set_caps_lock_led_state_closed.
    - done.
    - done.
    - unfold static_device_matching_callback. destruct ok; cbn [negb]; [| done].
      destruct (N.eqb_spec device 0) as [->|Hnz]; [done |].
      by rewrite device_matching_callback_closed.
    - unfold static_device_removal_callback. destruct ok; cbn [negb]; [| done].
      by destruct (device_removal_callback_hids device s) as [_ ->].
    - destruct (hids_ s !! device) as [h|]; [| done].
      by destruct (value_callback_frame tbl h usage_page usage integer_value s) as [_ ->].
    - done.
    - done. }
  split_and!; [done | |].
  - intros Hg Hg'. destruct (assigns_grabbed e) eqn:He.
    + destruct e as [now|timer now is_ready| | |st| |f t|ok device p|ok device
                    |device usage_page usage integer_value|device changed pressed
                    |readable hardware];
        try discriminate; [done |].
      cbn [step] in Hg'. unfold ungrab_devices in Hg'. rewrite Hg in Hg'. cbn [negb] in Hg'.
      congruence.
    + rewrite Hframe in Hg' by done. congruence.
  - intros Hg Hg'. destruct (assigns_grabbed e) eqn:He.
    + destruct e as [now|timer now is_ready| | |st| |f t|ok device p|ok device
                    |device usage_page usage integer_value|device changed pressed
                    |readable hardware];
        try discriminate; [| done].
      cbn [step] in Hg'. rewrite grab_timer_fire_grabbed in Hg' by done. congruence.
    + rewrite Hframe in Hg' by done. congruence.
Qed.

Lemma grabbed_flag_assigned_only_by_tick_and_ungrab_witness :
  grabbed_ (step macos_usage_tables (ev_device_removal true 7%N) two_devices_grabbed)
  = grabbed_ two_devices_grabbed.
Proof.
  pose proof (grabbed_flag_assigned_only_by_tick_and_ungrab macos_usage_tables
                (ev_device_removal true 7%N) two_devices_grabbed) as [H _].
  apply H. reflexivity.
Defined.

(** ** Registry and Grabbed Flag agree *)








